(** * ARTH_Web: team registration, score updates and scoreboard

    A shallow embedding of [src/lib/firestore.ts] (the three persistence
    layers it contains: Firestore keyed by team name, Firestore with
    store-assigned document ids, and the Realtime Database keyed by uid), of
    the HTTP handlers [POST /api/register] and [POST /api/update-score], and
    of the registration form's [handleSubmit].

    Conventions of the embedding.
    - A JavaScript [number] holding a score, an increment or a team number is
      an integer of [Z] (the data model has integer scores); the special
      values a request body can carry are kept apart in [JsNumber].
    - A JavaScript string is a [string]; a character is one code unit below
      256.
    - [async] code is written in a state-and-exception monad over a world that
      holds the store's contents.  Every call to the hosted store can fail:
      the environment's [outage] says, for the n-th call, whether it throws.
    - [Math.random()] and [Timestamp.now()]/[Date.now()] read the environment.
    - [console.log]/[console.error] have no effect on the world and are left
      out. *)

From Stdlib Require Import ZArith QArith Qround String Ascii List Lia Permutation Sorted Bool.
From stdpp Require Import gmap strings list fin_maps pretty.

Local Open Scope string_scope.
Local Open Scope list_scope.
Local Open Scope Z_scope.

(** ** JavaScript values, exceptions and the monad of effects *)

Module Js.

(** What a [throw] carries: an [Error] instance with its message, or any
    other value ([error instanceof Error] is false). *)
Inductive Thrown : Type :=
| ErrorObj (message : string)
| NotAnError.

Inductive Outcome (A : Type) : Type :=
| Return (a : A)
| Throw (e : Thrown).
Arguments Return {A} a.
Arguments Throw {A} e.

Definition M (W A : Type) : Type := W -> Outcome A * W.

Definition ret {W A} (a : A) : M W A := fun w => (Return a, w).

Definition throw {W A} (e : Thrown) : M W A := fun w => (Throw e, w).

Definition bind {W A B} (c : M W A) (k : A -> M W B) : M W B :=
  fun w =>
    match c w with
    | (Return a, w') => k a w'
    | (Throw e, w') => (Throw e, w')
    end.

(** [try { c } catch (error) { h error }] *)
Definition try_catch {W A} (c : M W A) (h : Thrown -> M W A) : M W A :=
  fun w =>
    match c w with
    | (Return a, w') => (Return a, w')
    | (Throw e, w') => h e w'
    end.

(** [error instanceof Error ? error.message : fallback] *)
Definition message_or (e : Thrown) (fallback : string) : string :=
  match e with
  | ErrorObj m => m
  | NotAnError => fallback
  end.

Definition instanceof_Error (e : Thrown) : bool :=
  match e with
  | ErrorObj _ => true
  | NotAnError => false
  end.

(** *** Strings *)

(** The double quote, for messages that quote a value. *)
Definition dquote : string := String (ascii_of_nat 34) EmptyString.

(** [s.charAt(i)]: the one-character string at index [i], or the empty
    string when [i] is out of range. *)
Definition charAt (s : string) (i : Z) : string :=
  if i <? 0 then ""
  else match String.get (Z.to_nat i) s with
       | Some c => String c EmptyString
       | None => ""
       end.

(** White space and line terminators among the code units below 256:
    TAB, LF, VT, FF, CR, SPACE and NBSP. *)
Definition isWhiteSpace (c : ascii) : bool :=
  let n := nat_of_ascii c in
  ((9 <=? n) && (n <=? 13) || (n =? 32) || (n =? 160))%nat.

Fixpoint trimStart (s : string) : string :=
  match s with
  | EmptyString => EmptyString
  | String c s' => if isWhiteSpace c then trimStart s' else s
  end.

Fixpoint trimEnd (s : string) : string :=
  match s with
  | EmptyString => EmptyString
  | String c s' =>
      match trimEnd s' with
      | EmptyString => if isWhiteSpace c then EmptyString else String c EmptyString
      | t => String c t
      end
  end.

(** [s.trim()] *)
Definition trim (s : string) : string := trimEnd (trimStart s).

(** [s.includes(needle)] *)
Fixpoint includes (s needle : string) : bool :=
  String.prefix needle s ||
  match s with
  | EmptyString => false
  | String _ s' => includes s' needle
  end.

(** [Math.random()]: a number of the half-open unit interval. *)
Record Unit01 : Type := mkUnit01 {
  u01 : Q;
  u01_range : Qle_bool 0 u01 && negb (Qle_bool 1 u01) = true
}.

(** [Math.floor(r * n)] for a draw [r] *)
Definition floor_scaled (r : Unit01) (n : nat) : Z :=
  Qfloor (u01 r * inject_Z (Z.of_nat n)).

(** *** Values of a parsed JSON body *)

Inductive JsNumber : Type :=
| Int (z : Z)
| NaN
| PosInfinity
| NegInfinity.

Inductive JsValue : Type :=
| JUndefined
| JNull
| JBool (b : bool)
| JNumber (n : JsNumber)
| JString (s : string)
| JObject.

(** [!v] is [negb (truthy v)] *)
Definition truthy (v : JsValue) : bool :=
  match v with
  | JUndefined | JNull => false
  | JBool b => b
  | JNumber (Int z) => negb (z =? 0)
  | JNumber NaN => false
  | JNumber _ => true
  | JString s => negb (String.eqb s "")
  | JObject => true
  end.

(** [x < bound] and [x > bound] for an integer bound *)
Definition num_lt (x : JsNumber) (bound : Z) : bool :=
  match x with
  | Int z => z <? bound
  | NegInfinity => true
  | NaN | PosInfinity => false
  end.

Definition num_gt (x : JsNumber) (bound : Z) : bool :=
  match x with
  | Int z => bound <? z
  | PosInfinity => true
  | NaN | NegInfinity => false
  end.

Definition isNaN (x : JsNumber) : bool :=
  match x with NaN => true | _ => false end.

(** *** Regular expressions

    The two patterns of the validation code are anchored at both ends, so
    [re.test(s)] is a match of the whole string; it is decided with
    derivatives. *)

Inductive Regex : Type :=
| Never
| Empty
| Class (p : ascii -> bool)
| Cat (r1 r2 : Regex)
| Or (r1 r2 : Regex)
| Star (r : Regex).

Fixpoint nullable (r : Regex) : bool :=
  match r with
  | Never => false
  | Empty => true
  | Class _ => false
  | Cat r1 r2 => nullable r1 && nullable r2
  | Or r1 r2 => nullable r1 || nullable r2
  | Star _ => true
  end.

Fixpoint deriv (c : ascii) (r : Regex) : Regex :=
  match r with
  | Never => Never
  | Empty => Never
  | Class p => if p c then Empty else Never
  | Cat r1 r2 =>
      if nullable r1 then Or (Cat (deriv c r1) r2) (deriv c r2)
      else Cat (deriv c r1) r2
  | Or r1 r2 => Or (deriv c r1) (deriv c r2)
  | Star r1 => Cat (deriv c r1) (Star r1)
  end.

Fixpoint test (r : Regex) (s : string) : bool :=
  match s with
  | EmptyString => nullable r
  | String c s' => test (deriv c r) s'
  end.

(** [r+], [r?] and [r{lo,lo+extra}] *)
Definition Plus (r : Regex) : Regex := Cat r (Star r).

Definition Opt (r : Regex) : Regex := Or Empty r.

Fixpoint Exactly (n : nat) (r : Regex) : Regex :=
  match n with
  | O => Empty
  | S n' => Cat r (Exactly n' r)
  end.

Fixpoint AtMost (n : nat) (r : Regex) : Regex :=
  match n with
  | O => Empty
  | S n' => Opt (Cat r (AtMost n' r))
  end.

Definition Between (lo extra : nat) (r : Regex) : Regex :=
  Cat (Exactly lo r) (AtMost extra r).

Definition Lit (c : ascii) : Regex := Class (Ascii.eqb c).

Definition isDigit (c : ascii) : bool :=
  let n := nat_of_ascii c in ((48 <=? n) && (n <=? 57))%nat.

(** [/^[^\s@]+@[^\s@]+\.[^\s@]+$/] *)
Definition emailRegex : Regex :=
  let other := Class (fun c => negb (isWhiteSpace c || Ascii.eqb c "@")) in
  Cat (Plus other) (Cat (Lit "@") (Cat (Plus other) (Cat (Lit ".") (Plus other)))).

(** [/^[\+]?[\d\s\-\(\)]{10,15}$/] *)
Definition phoneRegex : Regex :=
  let sym := Class (fun c => isDigit c || isWhiteSpace c || Ascii.eqb c "-"
                             || Ascii.eqb c "(" || Ascii.eqb c ")") in
  Cat (Opt (Lit "+")) (Between 10 5 sym).

End Js.

Declare Scope js_scope.
Delimit Scope js_scope with js.
Notation "x <- c ;; k" := (Js.bind c (fun x => k))
  (at level 100, c at next level, right associativity) : js_scope.
Notation "c ;;; k" := (Js.bind c (fun _ => k))
  (at level 100, right associativity) : js_scope.

Local Open Scope js_scope.

(** ** The world outside the program *)

(** What the program cannot decide: the numbers [Math.random()] returns, the
    store calls that fail (and what they throw), the clock, the ids the store
    assigns to documents added without one, and the wording of the engine's
    [TypeError] when a body that is not there is destructured. *)
Record Env : Type := mkEnv {
  random : nat -> Js.Unit01;
  outage : nat -> option Js.Thrown;
  wallclock : nat -> Z;
  autoId : nat -> string;
  typeErrorMessage : string
}.

(** The state the program acts on: the store's contents ([S] is a list of
    documents for Firestore, a map of nodes for the Realtime Database), the
    number of store calls and of random draws made so far, and whether
    [auth.currentUser] is set. *)
Record World (S : Type) : Type := mkWorld {
  store : S;
  calls : nat;
  draws : nat;
  currentUser : bool
}.
Arguments mkWorld {S} _ _ _ _.
Arguments store {S} _.
Arguments calls {S} _.
Arguments draws {S} _.
Arguments currentUser {S} _.

(** The only entity (interface [Team]). *)
Record Team : Type := mkTeam {
  teamNumber : Z;
  teamName : string;
  uid : string;
  player1 : string;
  player2 : string;
  email : string;
  phoneNumber : string;
  score : Z;
  createdAt : Z
}.

Definition with_score (t : Team) (z : Z) : Team :=
  mkTeam (teamNumber t) (teamName t) (uid t) (player1 t) (player2 t)
         (email t) (phoneNumber t) z (createdAt t).

Section Effects.
Context {S : Type} (env : Env).

(** One call to the hosted store: it throws when the environment says the
    store is out, and otherwise runs [op] on the store's contents. *)
Definition remote {A} (op : S -> Js.Outcome A * S) : Js.M (World S) A :=
  fun w =>
    match outage env (calls w) with
    | Some e => (Js.Throw e, mkWorld (store w) (Datatypes.S (calls w)) (draws w) (currentUser w))
    | None =>
        let (r, s') := op (store w) in
        (r, mkWorld s' (Datatypes.S (calls w)) (draws w) (currentUser w))
    end.

Definition Math_random : Js.M (World S) Js.Unit01 :=
  fun w => (Js.Return (random env (draws w)),
            mkWorld (store w) (calls w) (Datatypes.S (draws w)) (currentUser w)).

(** [Timestamp.now()] / [Date.now()] *)
Definition now : Js.M (World S) Z :=
  fun w => (Js.Return (wallclock env (calls w)), w).

Definition chars : string :=
  "ABCDEFGHIJKLMNOPQRSTUVWXYZabcdefghijklmnopqrstuvwxyz0123456789".

(** The loop of [generateUID], with [n] iterations to go. *)
Fixpoint generateUID_loop (n : nat) (result : string) : Js.M (World S) string :=
  match n with
  | O => Js.ret result
  | Datatypes.S n' =>
      r <- Math_random ;;
      generateUID_loop n' (result ++ Js.charAt chars (Js.floor_scaled r (String.length chars)))
  end.

Definition generateUID : Js.M (World S) string := generateUID_loop 5 "".

End Effects.

(** *** What the three versions of [registerTeam] share word for word *)

(** [snapshot.empty], and [!snapshot.exists()] on the root *)
Definition is_empty {A} (l : list A) : bool :=
  match l with
  | [] => true
  | _ :: _ => false
  end.

Definition name_taken_message (teamName' : string) : string :=
  "Team name " ++ Js.dquote ++ teamName' ++ Js.dquote
  ++ " is already taken. Please choose a different name.".

Definition email_taken_message : string :=
  "This email address is already registered. Please use a different email.".

(** The [catch] block of [registerTeam]. *)
Definition rethrow {W A} (error : Js.Thrown) : Js.M W A :=
  if Js.instanceof_Error error then Js.throw error
  else Js.throw (Js.ErrorObj "Failed to register team. Please try again.").

(** ** Firestore: the collection [teams]

    The collection is the list of its documents, in the order in which the
    store returns them to a query.  Document ids are opaque keys; a document
    reference is its id. *)

Module Firestore.

(** A document snapshot: [{ id: doc.id, ...doc.data() }]. *)
Record Doc : Type := mkDoc {
  docId : string;
  docData : Team
}.

Abbreviation Collection := (list Doc).

Definition has_id (id : string) (d : Doc) : bool := String.eqb (docId d) id.

Definition lookupDoc (id : string) (c : Collection) : option Doc :=
  List.find (has_id id) c.

(** Writing a document under an id replaces the document of that id, or adds
    a new one. *)
Fixpoint writeDoc (id : string) (data : Team) (c : Collection) : Collection :=
  match c with
  | [] => [mkDoc id data]
  | d :: c' => if has_id id d then mkDoc id data :: c' else d :: writeDoc id data c'
  end.

Fixpoint alterDoc (id : string) (f : Team -> Team) (c : Collection) : Collection :=
  match c with
  | [] => []
  | d :: c' => if has_id id d then mkDoc id (f (docData d)) :: c' else d :: alterDoc id f c'
  end.

Section Calls.
Context (env : Env).

Abbreviation M := (Js.M (World Collection)).

(** [getDoc(doc(db, 'teams', id))]; [None] when [!snapshot.exists()] *)
Definition getDoc (id : string) : M (option Doc) :=
  remote env (fun c => (Js.Return (lookupDoc id c), c)).

(** [getDocs(query(teamsRef, where(...)))], and [getDocs(teamsRef)] with the
    filter that keeps everything *)
Definition getDocs (cond : Doc -> bool) : M (list Doc) :=
  remote env (fun c => (Js.Return (List.filter cond c), c)).

Definition setDoc (id : string) (data : Team) : M unit :=
  remote env (fun c => (Js.Return tt, writeDoc id data c)).

(** [addDoc(collection(db, 'teams'), data)]: the store picks the id. *)
Definition addDoc (data : Team) : M string :=
  fun w =>
    let id := autoId env (calls w) in
    remote env (fun c => (Js.Return id, c ++ [mkDoc id data])) w.

(** [updateDoc(ref, { score: increment(n) })]: the store adds [n] to the
    field it holds; updating a document that does not exist is an error of
    the store. *)
Definition updateDoc_increment (id : string) (n : Z) : M unit :=
  remote env (fun c =>
    match lookupDoc id c with
    | Some _ => (Js.Return tt, alterDoc id (fun t => with_score t (score t + n)) c)
    | None => (Js.Throw (Js.ErrorObj "No document to update"), c)
    end).

Definition isEmailTaken (email' : string) : M bool :=
  Js.try_catch
    (snapshot <- getDocs (fun d => String.eqb (email (docData d)) email') ;;
     Js.ret (negb (is_empty snapshot)))
    (fun _ => Js.ret true).

Definition getNextTeamNumber : M Z :=
  Js.try_catch
    (snapshot <- getDocs (fun _ => true) ;;
     Js.ret (Z.of_nat (length snapshot) + 1))
    (fun _ => Js.ret 1).

(** [updateScore] has the same text in both Firestore versions. *)
Definition updateScore (uid' : string) (scoreIncrement : Z) : M bool :=
  Js.try_catch
    (querySnapshot <- getDocs (fun d => String.eqb (uid (docData d)) uid') ;;
     match querySnapshot with
     | [] => Js.throw (Js.ErrorObj "Team not found with the provided UID")
     | teamDoc :: _ =>
         updateDoc_increment (docId teamDoc) scoreIncrement ;;;
         Js.ret true
     end)
    (fun error => Js.throw error).

End Calls.
End Firestore.

(** *** Firestore, documents stored under the team name (the first version
    of [src/lib/firestore.ts]) *)

Module FirestoreByName.
Import Firestore.

Section Lib.
Context (env : Env).

Abbreviation M := (Js.M (World Collection)).

Definition isTeamNameTaken (teamName' : string) : M bool :=
  Js.try_catch
    (teamSnapshot <- getDoc env teamName' ;;
     Js.ret (match teamSnapshot with Some _ => true | None => false end))
    (fun _ => Js.ret true).

Definition registerTeam (teamName' player1' player2' email' phoneNumber' : string)
  : M Doc :=
  Js.try_catch
    (isNameTaken <- isTeamNameTaken teamName' ;;
     isEmailAlreadyUsed <- isEmailTaken env email' ;;
     if isNameTaken : bool then Js.throw (Js.ErrorObj (name_taken_message teamName'))
     else if isEmailAlreadyUsed : bool then Js.throw (Js.ErrorObj email_taken_message)
     else
       uid' <- generateUID env ;;
       teamNumber' <- getNextTeamNumber env ;;
       createdAt' <- now env ;;
       let teamData :=
         mkTeam teamNumber' teamName' uid' player1' player2' email' phoneNumber' 0 createdAt' in
       setDoc env teamName' teamData ;;;
       Js.ret (mkDoc teamName' teamData))
    rethrow.

(** [updateScoreByTeamName]: the document is reached by its id, the team
    name. *)
Definition updateScoreByTeamName (teamName' : string) (scoreIncrement : Z) : M bool :=
  Js.try_catch
    (teamSnapshot <- getDoc env teamName' ;;
     match teamSnapshot with
     | None => Js.throw (Js.ErrorObj "Team not found with the provided team name")
     | Some _ =>
         updateDoc_increment env teamName' scoreIncrement ;;;
         Js.ret true
     end)
    (fun error => Js.throw error).

End Lib.
End FirestoreByName.

(** *** Firestore, documents added under an id of the store's choosing (the
    second version) *)

Module FirestoreAutoId.
Import Firestore.

Section Lib.
Context (env : Env).

Abbreviation M := (Js.M (World Collection)).

Definition isTeamNameTaken (teamName' : string) : M bool :=
  Js.try_catch
    (snapshot <- getDocs env (fun d => String.eqb (teamName (docData d)) teamName') ;;
     Js.ret (negb (is_empty snapshot)))
    (fun _ => Js.ret true).

Definition registerTeam (teamName' player1' player2' email' phoneNumber' : string)
  : M Doc :=
  Js.try_catch
    (isNameTaken <- isTeamNameTaken teamName' ;;
     isEmailAlreadyUsed <- isEmailTaken env email' ;;
     if isNameTaken : bool then Js.throw (Js.ErrorObj (name_taken_message teamName'))
     else if isEmailAlreadyUsed : bool then Js.throw (Js.ErrorObj email_taken_message)
     else
       uid' <- generateUID env ;;
       teamNumber' <- getNextTeamNumber env ;;
       createdAt' <- now env ;;
       let teamData :=
         mkTeam teamNumber' teamName' uid' player1' player2' email' phoneNumber' 0 createdAt' in
       docRef <- addDoc env teamData ;;
       Js.ret (mkDoc docRef teamData))
    rethrow.

End Lib.
End FirestoreAutoId.

(** ** Realtime Database: one node per team at the root, keyed by uid (the
    third version) *)

Module RealtimeDb.

Abbreviation Root := (gmap string Team).

(** A string in a condition: the empty string is falsy. *)
Definition truthy_string (s : string) : bool := negb (String.eqb s "").

(** [x || 0] on a number *)
Definition or_zero (x : Z) : Z := if x =? 0 then 0 else x.

(** The comparator handed to [teamsArray.sort]. *)
Definition compareTeams (a b : Team) : Z :=
  if negb (score b =? score a) then score b - score a
  else teamNumber a - teamNumber b.

(** [Array.prototype.sort] with a comparator, as a stable insertion sort: an
    element goes before the first one it does not compare greater than. *)
Fixpoint sort_insert (cmp : Team -> Team -> Z) (x : Team) (l : list Team) : list Team :=
  match l with
  | [] => [x]
  | y :: l' => if cmp x y <=? 0 then x :: y :: l' else y :: sort_insert cmp x l'
  end.

Fixpoint sort (cmp : Team -> Team -> Z) (l : list Team) : list Team :=
  match l with
  | [] => []
  | x :: l' => sort_insert cmp x (sort cmp l')
  end.

(** The loop that keeps the nodes with a [teamName], in the order of
    [for (const uid in allData)]. *)
Definition teamNodes (allData : Root) : list Team :=
  List.map snd
    (List.filter (fun kv : string * Team => truthy_string (teamName (snd kv)))
                 (map_to_list allData)).

Section Lib.
Context (env : Env).

Abbreviation M := (Js.M (World Root)).

(** [signInAnonymously(auth)]: a call to the hosted service, after which
    [auth.currentUser] is set. *)
Definition signInAnonymously : M unit :=
  fun w =>
    match outage env (calls w) with
    | Some e => (Js.Throw e, mkWorld (store w) (S (calls w)) (draws w) (currentUser w))
    | None => (Js.Return tt, mkWorld (store w) (S (calls w)) (draws w) true)
    end.

Definition ensureAuth : M unit :=
  fun w =>
    if currentUser w then Js.ret tt w
    else Js.try_catch signInAnonymously
           (fun _ => Js.throw (Js.ErrorObj "Authentication required")) w.

(** [get(ref(db))]: the whole tree; [snapshot.exists()] fails on an empty one. *)
Definition get_root : M Root :=
  remote env (fun r => (Js.Return r, r)).

Definition exists_root (allData : Root) : bool :=
  negb (is_empty (map_to_list allData)).

(** [get(ref(db, uid))] *)
Definition get_node (uid' : string) : M (option Team) :=
  remote env (fun r => (Js.Return (r !! uid'), r)).

(** [set(ref(db, uid), teamData)] *)
Definition set_node (uid' : string) (teamData : Team) : M unit :=
  remote env (fun r => (Js.Return tt, <[uid' := teamData]> r)).

(** [update(ref(db, uid), { score: newScore })] on a node that is there *)
Definition update_score (uid' : string) (newScore : Z) : M unit :=
  remote env (fun r => (Js.Return tt, alter (fun t => with_score t newScore) uid' r)).

Definition isTeamNameTaken (teamName' : string) : M bool :=
  Js.try_catch
    (ensureAuth ;;;
     allData <- get_root ;;
     if negb (exists_root allData) then Js.ret false
     else Js.ret (List.existsb
                    (fun kv : string * Team => String.eqb (teamName (snd kv)) teamName')
                    (map_to_list allData)))
    (fun _ => Js.ret true).

Definition isEmailTaken (email' : string) : M bool :=
  Js.try_catch
    (ensureAuth ;;;
     allData <- get_root ;;
     if negb (exists_root allData) then Js.ret false
     else Js.ret (List.existsb
                    (fun kv : string * Team => String.eqb (email (snd kv)) email')
                    (map_to_list allData)))
    (fun _ => Js.ret true).

Definition getNextTeamNumber : M Z :=
  Js.try_catch
    (ensureAuth ;;;
     allData <- get_root ;;
     if negb (exists_root allData) then Js.ret 1
     else
       let teamCount :=
         List.fold_left
           (fun (teamCount : Z) (kv : string * Team) =>
              if truthy_string (teamName (snd kv)) then teamCount + 1 else teamCount)
           (map_to_list allData) 0 in
       Js.ret (teamCount + 1))
    (fun _ => Js.ret 1).

Definition registerTeam (teamName' player1' player2' email' phoneNumber' : string)
  : M Team :=
  Js.try_catch
    (ensureAuth ;;;
     isNameTaken <- isTeamNameTaken teamName' ;;
     isEmailAlreadyUsed <- isEmailTaken email' ;;
     if isNameTaken : bool
     then Js.throw (Js.ErrorObj (name_taken_message teamName'))
     else if isEmailAlreadyUsed : bool
     then Js.throw (Js.ErrorObj email_taken_message)
     else
       uid' <- generateUID env ;;
       teamNumber' <- getNextTeamNumber ;;
       createdAt' <- now env ;;
       let teamData :=
         mkTeam teamNumber' teamName' uid' player1' player2' email' phoneNumber' 0 createdAt' in
       set_node uid' teamData ;;;
       Js.ret teamData)
    rethrow.

Definition updateScore (uid' : string) (scoreIncrement : Z) : M bool :=
  Js.try_catch
    (ensureAuth ;;;
     snapshot <- get_node uid' ;;
     match snapshot with
     | None => Js.throw (Js.ErrorObj "Team not found with the provided UID")
     | Some currentTeam =>
         let newScore := or_zero (score currentTeam) + scoreIncrement in
         update_score uid' newScore ;;;
         Js.ret true
     end)
    (fun error => Js.throw error).

Definition getAllTeams : M (list Team) :=
  Js.try_catch
    (ensureAuth ;;;
     allData <- get_root ;;
     if negb (exists_root allData) then Js.ret []
     else Js.ret (sort compareTeams (teamNodes allData)))
    (fun _ => Js.ret []).

(** The search loop of [updateScoreByTeamName] (and of the team endpoint):
    the first node with the team name, in the order of
    [for (const uid in allData)]. *)
Definition find_by_name (allData : Root) (teamName' : string) : option (string * Team) :=
  List.find (fun kv : string * Team => String.eqb (teamName (snd kv)) teamName')
            (map_to_list allData).

Definition updateScoreByTeamName (teamName' : string) (scoreIncrement : Z) : M bool :=
  Js.try_catch
    (ensureAuth ;;;
     allData <- get_root ;;
     if negb (exists_root allData)
     then Js.throw (Js.ErrorObj "No teams found in database")
     else
       match find_by_name allData teamName' with
       | Some (targetUID, currentTeam) =>
           if truthy_string targetUID
           then
             let newScore := or_zero (score currentTeam) + scoreIncrement in
             update_score targetUID newScore ;;;
             Js.ret true
           else Js.throw (Js.ErrorObj "Team not found with the provided team name")
       | None => Js.throw (Js.ErrorObj "Team not found with the provided team name")
       end)
    (fun error => Js.throw error).

End Lib.

(** What the listener of [subscribeToScoreboard] is called with: a snapshot
    of the root, or an error. *)
Inductive ListenerEvent : Type :=
| Value (snapshot : Root)
| Cancelled (error : Js.Thrown).

(** The two functions [subscribeToScoreboard] hands to [onValue], as the list
    they pass to [callback]. *)
Definition subscribeToScoreboard (event : ListenerEvent) : list Team :=
  match event with
  | Value allData =>
      if negb (exists_root allData) then []
      else sort compareTeams (teamNodes allData)
  | Cancelled _ => []
  end.

End RealtimeDb.

(** ** The HTTP handlers and the registration form

    The handlers import [registerTeam] and [updateScore] from
    [@/lib/firestore]; they are written once, over whichever version of the
    library is linked. *)

Module Api.

Inductive ApiResponse (D : Type) : Type :=
| SuccessResponse (data : D)
| ErrorResponse (error : string).
Arguments SuccessResponse {D} data.
Arguments ErrorResponse {D} error.

(** [res.status(n).json(r)] *)
Record Response (D : Type) : Type := mkResponse {
  status : Z;
  json : ApiResponse D
}.
Arguments mkResponse {D} _ _.
Arguments status {D} _.
Arguments json {D} _.

(** [req]: the method, and the parsed body when there is one. *)
Record Request (B : Type) : Type := mkRequest {
  method : string;
  body : option B
}.
Arguments mkRequest {B} _ _.
Arguments method {B} _.
Arguments body {B} _.

Record RegisterBody : Type := mkRegisterBody {
  body_teamName : Js.JsValue;
  body_player1 : Js.JsValue;
  body_player2 : Js.JsValue;
  body_email : Js.JsValue;
  body_phoneNumber : Js.JsValue
}.

Record RegisterData : Type := mkRegisterData {
  data_teamNumber : Z;
  data_teamName : string;
  data_uid : string;
  data_player1 : string;
  data_player2 : string;
  data_email : string;
  data_phoneNumber : string;
  data_score : Z
}.

Record UpdateScoreBody : Type := mkUpdateScoreBody {
  body_uid : Js.JsValue;
  body_scoreIncrement : Js.JsValue
}.

(** The form of the home page and the state around it. *)
Record FormData : Type := mkFormData {
  form_teamName : string;
  form_player1 : string;
  form_player2 : string;
  form_email : string;
  form_phoneNumber : string
}.

Record FormState (R : Type) : Type := mkFormState {
  formData : FormData;
  isSubmitting : bool;
  registeredTeam : option R;
  error : string
}.
Arguments mkFormState {R} _ _ _ _.
Arguments formData {R} _.
Arguments isSubmitting {R} _.
Arguments registeredTeam {R} _.
Arguments error {R} _.

(** [pages/api/register.ts] *)
Module Register.
Section Handler.
Context {W R : Type} (env : Env).
Context (registerTeam : string -> string -> string -> string -> string -> Js.M W R).
Context (team_of : R -> Team).

(** The [try] block of [handler]. *)
Definition handler_try (req : Request RegisterBody) : Js.M W (Response RegisterData) :=
  match body req with
  | None => Js.throw (Js.ErrorObj (typeErrorMessage env))
  | Some b =>
      if negb (Js.truthy (body_teamName b)) || negb (Js.truthy (body_player1 b))
         || negb (Js.truthy (body_player2 b)) || negb (Js.truthy (body_email b))
         || negb (Js.truthy (body_phoneNumber b))
      then Js.ret (mkResponse 400 (ErrorResponse
             "Missing required fields. Please provide teamName, player1, player2, email, and phoneNumber."))
      else
        match body_teamName b, body_player1 b, body_player2 b, body_email b, body_phoneNumber b with
        | Js.JString teamName', Js.JString player1', Js.JString player2',
          Js.JString email', Js.JString phoneNumber' =>
            if negb (Js.test Js.emailRegex (Js.trim email'))
            then Js.ret (mkResponse 400 (ErrorResponse "Invalid email format."))
            else if negb (Js.test Js.phoneRegex (Js.trim phoneNumber'))
            then Js.ret (mkResponse 400 (ErrorResponse "Invalid phone number format."))
            else
              team <- registerTeam (Js.trim teamName') (Js.trim player1') (Js.trim player2')
                                   (Js.trim email') (Js.trim phoneNumber') ;;
              let t := team_of team in
              Js.ret (mkResponse 201 (SuccessResponse
                (mkRegisterData (teamNumber t) (teamName t) (uid t) (player1 t) (player2 t)
                                (email t) (phoneNumber t) (score t))))
        | _, _, _, _, _ =>
            Js.ret (mkResponse 400 (ErrorResponse
              "Invalid field types. All fields must be strings."))
        end
  end.

(** [POST /api/register] *)
Definition handler (req : Request RegisterBody) (w : W)
  : Response RegisterData * W :=
  if negb (String.eqb (method req) "POST")
  then (mkResponse 405 (ErrorResponse "Method not allowed. Use POST."), w)
  else
    match handler_try req w with
    | (Js.Return res, w') => (res, w')
    | (Js.Throw error, w') =>
        (mkResponse 500 (ErrorResponse (Js.message_or error "Internal server error")), w')
    end.

End Handler.
End Register.

(** [pages/index.tsx], the registration form *)
Module Home.
Section Page.
Context {W R : Type}.
Context (registerTeam : string -> string -> string -> string -> string -> Js.M W R).

(** The [try] block of [handleSubmit]. *)
Definition handleSubmit_try (f : FormData) : Js.M W R :=
  if String.eqb (Js.trim (form_teamName f)) "" || String.eqb (Js.trim (form_player1 f)) ""
     || String.eqb (Js.trim (form_player2 f)) "" || String.eqb (Js.trim (form_email f)) ""
     || String.eqb (Js.trim (form_phoneNumber f)) ""
  then Js.throw (Js.ErrorObj "Please fill in all fields")
  else if negb (Js.test Js.emailRegex (form_email f))
  then Js.throw (Js.ErrorObj "Please enter a valid email address")
  else if negb (Js.test Js.phoneRegex (Js.trim (form_phoneNumber f)))
  then Js.throw (Js.ErrorObj "Please enter a valid phone number")
  else if (String.length (Js.trim (form_teamName f)) <? 2)%nat
          || (30 <? String.length (Js.trim (form_teamName f)))%nat
  then Js.throw (Js.ErrorObj "Team name must be between 2 and 30 characters")
  else
    registerTeam (Js.trim (form_teamName f)) (Js.trim (form_player1 f))
                 (Js.trim (form_player2 f)) (Js.trim (form_email f))
                 (Js.trim (form_phoneNumber f)).

(** [handleSubmit]: the state of the page once the submission settles. *)
Definition handleSubmit (st : FormState R) (w : W) : FormState R * W :=
  match handleSubmit_try (formData st) w with
  | (Js.Return team, w') =>
      (mkFormState (mkFormData "" "" "" "" "") false (Some team) "", w')
  | (Js.Throw err, w') =>
      (mkFormState (formData st) false (registeredTeam st)
                   (Js.message_or err "An error occurred"), w')
  end.

End Page.
End Home.

(** [pages/api/update-score.ts] *)
Module UpdateScore.
Section Handler.
Context {W : Type} (env : Env).
Context (updateScore : string -> Z -> Js.M W bool).

(** The [try] block of [handler]. *)
Definition handler_try (req : Request UpdateScoreBody) : Js.M W (Response string) :=
  match body req with
  | None => Js.throw (Js.ErrorObj (typeErrorMessage env))
  | Some b =>
      if negb (Js.truthy (body_uid b))
      then Js.ret (mkResponse 400 (ErrorResponse "Missing required field: uid"))
      else
        match body_scoreIncrement b with
        | Js.JUndefined | Js.JNull =>
            Js.ret (mkResponse 400 (ErrorResponse "Missing required field: scoreIncrement"))
        | scoreIncrement =>
            match body_uid b with
            | Js.JString uid' =>
                match scoreIncrement with
                | Js.JNumber n =>
                    if Js.isNaN n
                    then Js.ret (mkResponse 400 (ErrorResponse
                           "Invalid field type: scoreIncrement must be a number"))
                    else if Js.num_lt n (-1000000) || Js.num_gt n 1000000
                    then Js.ret (mkResponse 400 (ErrorResponse
                           "Score increment must be between -1,000,000 and 1,000,000"))
                    else
                      match n with
                      | Js.Int z =>
                          updateScore (Js.trim uid') z ;;;
                          Js.ret (mkResponse 200 (SuccessResponse
                            ("Score updated successfully. Added " ++ pretty z
                             ++ " points to team " ++ uid' ++ ".")%string))
                      | _ =>
                          (* not reached: NaN and the infinities fail the two
                             tests above *)
                          Js.throw Js.NotAnError
                      end
                | _ =>
                    Js.ret (mkResponse 400 (ErrorResponse
                      "Invalid field type: scoreIncrement must be a number"))
                end
            | _ =>
                Js.ret (mkResponse 400 (ErrorResponse
                  "Invalid field type: uid must be a string"))
            end
        end
  end.

(** [POST /api/update-score] *)
Definition handler (req : Request UpdateScoreBody) (w : W)
  : Response string * W :=
  if negb (String.eqb (method req) "POST")
  then (mkResponse 405 (ErrorResponse "Method not allowed. Use POST."), w)
  else
    match handler_try req w with
    | (Js.Return res, w') => (res, w')
    | (Js.Throw error, w') =>
        if Js.instanceof_Error error
           && Js.includes (Js.message_or error "") "Team not found"
        then (mkResponse 404 (ErrorResponse "Team not found with the provided UID"), w')
        else (mkResponse 500 (ErrorResponse (Js.message_or error "Internal server error")), w')
    end.

End Handler.
End UpdateScore.

(** [pages/api/scoreboard.ts] *)
Module Scoreboard.

Record ScoreboardData (T : Type) : Type := mkScoreboardData {
  teams : list T;
  totalTeams : Z;
  lastUpdated : string
}.
Arguments mkScoreboardData {T} _ _ _.
Arguments teams {T} _.
Arguments totalTeams {T} _.
Arguments lastUpdated {T} _.

Section Handler.
Context {W T B : Type}.
Context (getAllTeams : Js.M W (list T)).
(** [new Date().toISOString()] *)
Context (toISOString_now : W -> string).

(** [GET /api/scoreboard] *)
Definition handler (req : Request B) (w : W) : Response (ScoreboardData T) * W :=
  if negb (String.eqb (method req) "GET")
  then (mkResponse 405 (ErrorResponse "Method not allowed. Use GET."), w)
  else
    match getAllTeams w with
    | (Js.Return teams', w') =>
        (mkResponse 200 (SuccessResponse
           (mkScoreboardData teams' (Z.of_nat (length teams')) (toISOString_now w'))), w')
    | (Js.Throw error, w') =>
        (mkResponse 500
           (ErrorResponse (Js.message_or error "Failed to fetch scoreboard data")), w')
    end.

End Handler.
End Scoreboard.

(** [pages/api/team.ts], and its Firestore version: the handler is the same
    text but for the two lookups. *)
Module Team.

(** A value of [req.query]: absent, a string, or an array of strings when
    the parameter is repeated. *)
Inductive QueryValue : Type :=
| QAbsent
| QString (s : string)
| QArray (l : list string).

Definition query_truthy (q : QueryValue) : bool :=
  match q with
  | QAbsent => false
  | QString s => negb (String.eqb s "")
  | QArray _ => true
  end.

Record TeamBody : Type := mkTeamBody {
  lookup_uid : Js.JsValue;
  lookup_teamName : Js.JsValue
}.

Record TeamRequest : Type := mkTeamRequest {
  team_method : string;
  query_uid : QueryValue;
  query_teamName : QueryValue;
  team_body : option TeamBody
}.

Section Lookups.
Context (env : Env).
(** What the client library throws when the path of a reference is not a
    string. *)
Context (invalidPath : Js.Thrown).

(** Realtime Database: [get(ref(db, uid))] *)
Definition rtdb_by_uid (uid' : Js.JsValue) : Js.M (World RealtimeDb.Root) (option Team) :=
  match uid' with
  | Js.JString s => RealtimeDb.get_node env s
  | _ => Js.throw invalidPath
  end.

(** Realtime Database: [get(ref(db))] and the search loop; a name that is
    not a string equals no [teamName]. *)
Definition rtdb_by_teamName (teamName' : Js.JsValue)
  : Js.M (World RealtimeDb.Root) (option Team) :=
  allData <- RealtimeDb.get_root env ;;
  if RealtimeDb.exists_root allData
  then Js.ret (match teamName' with
               | Js.JString s => option_map snd (RealtimeDb.find_by_name allData s)
               | _ => None
               end)
  else Js.ret None.

(** Firestore: [getDoc(doc(db, 'teams', uid))] *)
Definition firestore_by_uid (uid' : Js.JsValue)
  : Js.M (World (list Firestore.Doc)) (option Firestore.Doc) :=
  match uid' with
  | Js.JString s => Firestore.getDoc env s
  | _ => Js.throw invalidPath
  end.

(** Firestore: [getDocs(query(teamsRef, where('teamName', '==', teamName)))]
    and [querySnapshot.docs[0]] *)
Definition firestore_by_teamName (teamName' : Js.JsValue)
  : Js.M (World (list Firestore.Doc)) (option Firestore.Doc) :=
  querySnapshot <-
    Firestore.getDocs env
      (fun d => match teamName' with
                | Js.JString s => String.eqb (teamName (Firestore.docData d)) s
                | _ => false
                end) ;;
  Js.ret (List.head querySnapshot).

End Lookups.

Section Handler.
Context {W D : Type} (env : Env).
Context (by_uid by_teamName : Js.JsValue -> Js.M W (option D)).

(** The [try] block once [team] has been looked up, and its [catch]. *)
Definition respond (lookup : Js.M W (option D)) (w : W) : Response D * W :=
  match lookup w with
  | (Js.Return (Some team), w') => (mkResponse 200 (SuccessResponse team), w')
  | (Js.Return None, w') => (mkResponse 404 (ErrorResponse "Team not found"), w')
  | (Js.Throw error, w') =>
      (mkResponse 500 (ErrorResponse (Js.message_or error "Internal server error")), w')
  end.

(** [q && typeof q === 'string'] on a value of the query *)
Definition query_string (q : QueryValue) : option string :=
  match q with
  | QString s => if query_truthy q then Some s else None
  | _ => None
  end.

(** [GET /api/team] and [POST /api/team].  The body is destructured outside
    the [try]: without a body the handler itself throws. *)
Definition handler (req : TeamRequest) : Js.M W (Response D) :=
  if String.eqb (team_method req) "GET"
  then
    if negb (query_truthy (query_uid req)) && negb (query_truthy (query_teamName req))
    then Js.ret (mkResponse 400 (ErrorResponse
           "Please provide either uid or teamName parameter"))
    else
      fun w =>
        let (res, w') :=
          respond
            (match query_string (query_uid req) with
             | Some uid' => by_uid (Js.JString uid')
             | None =>
                 match query_string (query_teamName req) with
                 | Some teamName' => by_teamName (Js.JString teamName')
                 | None => Js.ret None
                 end
             end) w in
        (Js.Return res, w')
  else if String.eqb (team_method req) "POST"
  then
    match team_body req with
    | None => Js.throw (Js.ErrorObj (typeErrorMessage env))
    | Some b =>
        if negb (Js.truthy (lookup_uid b)) && negb (Js.truthy (lookup_teamName b))
        then Js.ret (mkResponse 400 (ErrorResponse
               "Please provide either uid or teamName in request body"))
        else
          fun w =>
            let (res, w') :=
              respond
                (if Js.truthy (lookup_uid b) then by_uid (lookup_uid b)
                 else if Js.truthy (lookup_teamName b) then by_teamName (lookup_teamName b)
                 else Js.ret None) w in
            (Js.Return res, w')
    end
  else Js.ret (mkResponse 405 (ErrorResponse "Method not allowed. Use GET or POST.")).

End Handler.
End Team.
End Api.

(** ** One-time passwords ([src/lib/otp.ts])

    The module keeps a map from the lower-cased e-mail to the password and
    its expiry, and a timer per stored password that deletes the entry of its
    e-mail.  [Date.now()] is the argument [now], in milliseconds; the timers
    that are due run when the event loop gets to them ([run_timers]). *)

Module Otp.

Record Entry : Type := mkEntry {
  otp : string;
  expires : Z;
  entry_email : string
}.

(** A pending [setTimeout] whose callback deletes [timer_key]. *)
Record Timer : Type := mkTimer {
  due : Z;
  timer_key : string
}.

Record State : Type := mkState {
  otpStore : gmap string Entry;
  timers : list Timer
}.

(** [c.toLowerCase()] on a code unit below 256: [A-Z], and the accented
    capitals but the multiplication sign. *)
Definition lower_char (c : ascii) : ascii :=
  let n := nat_of_ascii c in
  if ((65 <=? n) && (n <=? 90) || (192 <=? n) && (n <=? 222) && negb (n =? 215))%nat
  then ascii_of_nat (n + 32)
  else c.

Fixpoint toLowerCase (s : string) : string :=
  match s with
  | EmptyString => EmptyString
  | String c s' => String (lower_char c) (toLowerCase s')
  end.

(** [Math.floor(100000 + Math.random() * 900000).toString()] *)
Definition generateOTP {S} (env : Env) : Js.M (World S) string :=
  r <- Math_random env ;;
  Js.ret (pretty (Qfloor (100000 + Js.u01 r * 900000))).

(** The delay [setTimeout] works with: one below 1 or above [2^31 - 1] is
    set to 1. *)
Definition timeout_delay (ms : Z) : Z :=
  if (ms <? 1) || (2147483647 <? ms) then 1 else ms.

(** [storeOTP(email, otp, expirationMinutes = 10)] *)
Definition storeOTP (now : Z) (email' otp' : string) (expirationMinutes : option Z)
           (st : State) : State :=
  let minutes := match expirationMinutes with Some m => m | None => 10 end in
  let expires' := now + minutes * 60 * 1000 in
  mkState (<[toLowerCase email' := mkEntry otp' expires' email']> (otpStore st))
          (timers st ++ [mkTimer (now + timeout_delay (minutes * 60 * 1000))
                                 (toLowerCase email')]).

Definition verifyOTP (now : Z) (email' providedOTP : string) (st : State) : bool * State :=
  match otpStore st !! toLowerCase email' with
  | None => (false, st)
  | Some stored =>
      if expires stored <? now
      then (false, mkState (delete (toLowerCase email') (otpStore st)) (timers st))
      else if negb (String.eqb (otp stored) providedOTP)
      then (false, st)
      else (true, mkState (delete (toLowerCase email') (otpStore st)) (timers st))
  end.

(** The event loop at time [now]: every timer that is due runs its callback,
    [otpStore.delete(key)], and is gone. *)
Definition run_timers (now : Z) (st : State) : State :=
  mkState
    (List.fold_left (fun m t => delete (timer_key t) m)
                    (List.filter (fun t => due t <=? now) (timers st)) (otpStore st))
    (List.filter (fun t => negb (due t <=? now)) (timers st)).

Definition initial : State := mkState ∅ [].

(** What happens to the module over time: calls of the two functions and
    turns of the event loop, each at its time. *)
Inductive Op : Type :=
| Store (now : Z) (email' otp' : string) (expirationMinutes : option Z)
| Verify (now : Z) (email' providedOTP : string)
| Tick (now : Z).

Definition step (st : State) (op : Op) : State :=
  match op with
  | Store now email' otp' expirationMinutes => storeOTP now email' otp' expirationMinutes st
  | Verify now email' providedOTP => snd (verifyOTP now email' providedOTP st)
  | Tick now => run_timers now st
  end.

Definition run (ops : list Op) (st : State) : State := List.fold_left step ops st.

(** Every stored entry has a timer pending for its key. *)
Definition covered (st : State) : Prop :=
  forall k, is_Some (otpStore st !! k) -> exists t, In t (timers st) /\ timer_key t = k.

End Otp.

(** ** Vocabulary of the properties *)

(** The store answers every call. *)
Definition available (env : Env) : Prop := forall n, outage env n = None.

(** The characters of the alphabet [A-Z], [a-z], [0-9]. *)
Definition alphanumeric (c : ascii) : bool :=
  let n := nat_of_ascii c in
  ((65 <=? n) && (n <=? 90) || (97 <=? n) && (n <=? 122) || (48 <=? n) && (n <=? 57))%nat.

Fixpoint all_chars (p : ascii -> bool) (s : string) : bool :=
  match s with
  | EmptyString => true
  | String c s' => p c && all_chars p s'
  end.

(** A 5-character alphanumeric identifier. *)
Definition uid_shape (s : string) : Prop :=
  String.length s = 5%nat /\ all_chars alphanumeric s = true.

(** The order of the scoreboard: score descending, then team number
    ascending. *)
Definition scoreboard_order (a b : Team) : Prop :=
  score b < score a \/ (score a = score b /\ teamNumber a <= teamNumber b).

(** The increment is outside [-1,000,000, 1,000,000]. *)
Definition outside_bounds (n : Js.JsNumber) : Prop :=
  match n with
  | Js.Int z => z < -1000000 \/ 1000000 < z
  | Js.PosInfinity | Js.NegInfinity => True
  | Js.NaN => False
  end.

(** Documents of a collection have distinct ids. *)
Definition distinct_ids (c : list Firestore.Doc) : Prop :=
  NoDup (List.map Firestore.docId c).

(** Every document is stored under its team name, as [registerTeam] of the
    first version stores them. *)
Definition keyed_by_name (c : list Firestore.Doc) : Prop :=
  forall d, In d c -> Firestore.docId d = teamName (Firestore.docData d).

(** The uid query of [updateScore]. *)
Definition uid_matches (c : list Firestore.Doc) (uid' : string) : list Firestore.Doc :=
  List.filter (fun d => String.eqb (uid (Firestore.docData d)) uid') c.

Definition bump (n : Z) (d : Firestore.Doc) : Firestore.Doc :=
  Firestore.mkDoc (Firestore.docId d)
    (with_score (Firestore.docData d) (score (Firestore.docData d) + n)).

(** The world once [ensureAuth] has run against a service that answers: a
    sign-in is made when no user is set. *)
Definition signed_in {S} (w : World S) : World S :=
  if currentUser w then w
  else mkWorld (store w) (Datatypes.S (calls w)) (draws w) true.

(** A node with this team name, or this e-mail, is in the tree. *)
Definition name_in_root (r : gmap string Team) (teamName' : string) : bool :=
  List.existsb (fun kv : string * Team => String.eqb (teamName (snd kv)) teamName')
               (map_to_list r).

Definition email_in_root (r : gmap string Team) (email' : string) : bool :=
  List.existsb (fun kv : string * Team => String.eqb (email (snd kv)) email')
               (map_to_list r).

(** No two documents of the collection have the same team name, or the
    same e-mail. *)
Definition unique_names (c : list Firestore.Doc) : Prop :=
  NoDup (List.map (fun d => teamName (Firestore.docData d)) c).

Definition unique_emails (c : list Firestore.Doc) : Prop :=
  NoDup (List.map (fun d => email (Firestore.docData d)) c).

(** A pattern that matches no string at all, by its shape. *)
Fixpoint void (r : Js.Regex) : bool :=
  match r with
  | Js.Never => true
  | Js.Empty | Js.Class _ | Js.Star _ => false
  | Js.Cat r1 r2 => void r1 || void r2
  | Js.Or r1 r2 => void r1 && void r2
  end.

(** Every character class of the pattern lies within [P]. *)
Fixpoint classes_within (P : ascii -> bool) (r : Js.Regex) : Prop :=
  match r with
  | Js.Never | Js.Empty => True
  | Js.Class p => forall c, p c = true -> P c = true
  | Js.Cat r1 r2 | Js.Or r1 r2 => classes_within P r1 /\ classes_within P r2
  | Js.Star r1 => classes_within P r1
  end.

Definition not_space (c : ascii) : bool := negb (Js.isWhiteSpace c).

(** The characters a phone number may be made of. *)
Definition phone_symbol (c : ascii) : bool :=
  Js.isDigit c || Js.isWhiteSpace c || Ascii.eqb c "-" || Ascii.eqb c "("
  || Ascii.eqb c ")" || Ascii.eqb c "+".

(** The body a client sends for the fields of the form. *)
Definition body_of_form (f : Api.FormData) : Api.RegisterBody :=
  Api.mkRegisterBody (Js.JString (Api.form_teamName f)) (Js.JString (Api.form_player1 f))
                     (Js.JString (Api.form_player2 f)) (Js.JString (Api.form_email f))
                     (Js.JString (Api.form_phoneNumber f)).

(** *** Runs of several registrations *)

Module Scenario.

Record Registration : Type := mkRegistration {
  reg_teamName : string;
  reg_player1 : string;
  reg_player2 : string;
  reg_email : string;
  reg_phoneNumber : string
}.

Section Run.
Context {W R : Type}.
Context (registerTeam : string -> string -> string -> string -> string -> Js.M W R).

Definition register (q : Registration) : Js.M W R :=
  registerTeam (reg_teamName q) (reg_player1 q) (reg_player2 q)
               (reg_email q) (reg_phoneNumber q).

(** One call after the other, each on the world the previous one left. *)
Fixpoint register_all (qs : list Registration) (w : W) : list (Js.Outcome R) * W :=
  match qs with
  | [] => ([], w)
  | q :: qs' =>
      let (r, w') := register q w in
      let (rs, w'') := register_all qs' w' in
      (r :: rs, w'')
  end.

End Run.



End Scenario.

(** *** Concrete environments and stores, for the examples *)

Module Examples.

Definition draw (a : Z) (b : positive)
  (H : Qle_bool 0 (a # b) && negb (Qle_bool 1 (a # b)) = true) : Js.Unit01 :=
  Js.mkUnit01 (a # b) H.

(** A fixed series of draws, then zeros. *)
Definition some_draws (n : nat) : Js.Unit01 :=
  nth n [draw 0 1 eq_refl; draw 1 2 eq_refl; draw 61 62 eq_refl;
         draw 99 100 eq_refl; draw 26 62 eq_refl] (draw 0 1 eq_refl).

(** The store is up, and the draws vary. *)
Definition calm : Env :=
  mkEnv some_draws (fun _ => None) (fun n => 1700000000 + Z.of_nat n)
        (fun n => ("doc" ++ pretty n)%string)
        "Cannot destructure property of undefined".


(** The store fails on call number [k] only. *)
Definition out_at (k : nat) : Env :=
  mkEnv some_draws
        (fun n => if (n =? k)%nat then Some (Js.ErrorObj "unavailable") else None)
        (fun n => 1700000000 + Z.of_nat n)
        (fun n => ("doc" ++ pretty n)%string)
        "Cannot destructure property of undefined".

Definition team (number : Z) (name id mail : string) (points : Z) : Team :=
  mkTeam number name id "Ann" "Bob" mail "+1234567890" points 1700000000.

Definition empty_collection : World (list Firestore.Doc) := mkWorld [] 0 0 false.

(** One team, stored under its name. *)
Definition one_team : World (list Firestore.Doc) :=
  mkWorld [Firestore.mkDoc "Alpha" (team 1 "Alpha" "qK234" "alpha@example.com" 0)] 0 0 false.

(** Two documents that carry the same uid, and a third that does not. *)
Definition colliding : World (list Firestore.Doc) :=
  mkWorld [Firestore.mkDoc "Alpha" (team 1 "Alpha" "qK234" "alpha@example.com" 10);
           Firestore.mkDoc "Beta" (team 2 "Beta" "qK234" "beta@example.com" 20);
           Firestore.mkDoc "Gamma" (team 3 "Gamma" "aB567" "gamma@example.com" 30)] 0 0 false.


Definition one_node : World (gmap string Team) :=
  mkWorld {[ "qK234" := team 1 "Alpha" "qK234" "alpha@example.com" 0 ]} 0 0 false.

(** Scores [50, 50, 10] with team numbers [2, 1, 3]. *)
Definition three_nodes : World (gmap string Team) :=
  mkWorld (<[ "aaaaa" := team 2 "Two" "aaaaa" "two@example.com" 50 ]>
           (<[ "bbbbb" := team 1 "One" "bbbbb" "one@example.com" 50 ]>
            {[ "ccccc" := team 3 "Three" "ccccc" "three@example.com" 10 ]})) 0 0 false.




Definition post_register (name mail : string) : Api.Request Api.RegisterBody :=
  Api.mkRequest "POST"
    (Some (Api.mkRegisterBody (Js.JString name) (Js.JString "Ann") (Js.JString "Bob")
                              (Js.JString mail) (Js.JString "+1234567890"))).

Definition post_update_score (id : string) (n : Js.JsNumber)
  : Api.Request Api.UpdateScoreBody :=
  Api.mkRequest "POST" (Some (Api.mkUpdateScoreBody (Js.JString id) (Js.JNumber n))).

End Examples.

(** * Properties *)

(** ** The identifier generator *)

Section UidFacts.
Context {S : Type} (env : Env).

Lemma floor_scaled_range (r : Js.Unit01) (n : nat) :
  (0 < n)%nat -> 0 <= Js.floor_scaled r n < Z.of_nat n.
Proof.
  intros Hn. destruct r as [[a b] Hr]. unfold Js.floor_scaled. cbn [Js.u01].
  apply andb_prop in Hr as [Hlo Hhi].
  apply Qle_bool_iff in Hlo. unfold Qle in Hlo. cbn in Hlo.
  assert (Hlt : a < Z.pos b).
  { destruct (Qle_bool 1 (a # b)) eqn:E; [discriminate|].
    destruct (Z_lt_dec a (Z.pos b)) as [|Hge]; [assumption|].
    exfalso. assert (Qle_bool 1 (a # b) = true); [|congruence].
    apply Qle_bool_iff. unfold Qle. cbn. lia. }
  unfold Qfloor, Qmult, inject_Z. cbn [Qnum Qden].
  rewrite Pos.mul_1_r. split.
  - apply Z.div_pos; lia.
  - apply Z.div_lt_upper_bound; nia.
Qed.

Lemma chars_alphanumeric (i : Z) :
  0 <= i < 62 ->
  exists c, Js.charAt chars i = String c EmptyString /\ alphanumeric c = true.
Proof.
  intros Hi. unfold Js.charAt.
  destruct (i <? 0) eqn:E; [lia|].
  assert (Hall : forallb (fun k => match String.get k chars with
                                   | Some c => alphanumeric c
                                   | None => false
                                   end) (seq 0 62) = true) by (vm_compute; reflexivity).
  rewrite forallb_forall in Hall.
  specialize (Hall (Z.to_nat i)).
  destruct (String.get (Z.to_nat i) chars) as [c|].
  - exists c. split; [reflexivity|]. apply Hall. apply in_seq. lia.
  - assert (false = true); [|discriminate]. apply Hall. apply in_seq. lia.
Qed.

Lemma append_cons (c : ascii) (s t : string) :
  (String c s ++ t)%string = String c (s ++ t).
Proof. reflexivity. Qed.

Lemma append_empty_r (s : string) : (s ++ "")%string = s.
Proof. induction s as [|c s IH]; [reflexivity|]. rewrite append_cons. now rewrite IH. Qed.

Lemma append_assoc (s t u : string) : ((s ++ t) ++ u)%string = (s ++ (t ++ u))%string.
Proof.
  induction s as [|c s IH]; [reflexivity|]. rewrite !append_cons. now rewrite IH.
Qed.

(** The loop appends one alphanumeric character per iteration and draws one
    random number for it; nothing else in the world moves. *)
Lemma generateUID_loop_spec (n : nat) (result : string) (w : World S) :
  exists tail,
    generateUID_loop env n result w
    = (Js.Return (result ++ tail)%string,
       mkWorld (store w) (calls w) (draws w + n) (currentUser w))
    /\ String.length tail = n /\ all_chars alphanumeric tail = true.
Proof.
  revert result w. induction n as [|n IH]; intros result w.
  - exists ""%string. cbn [generateUID_loop]. unfold Js.ret.
    rewrite append_empty_r, Nat.add_0_r. destruct w; auto.
  - cbn [generateUID_loop]. unfold Js.bind, Math_random.
    destruct (chars_alphanumeric (Js.floor_scaled (random env (draws w)) (String.length chars)))
      as (c & Hc & Hal).
    { apply (floor_scaled_range _ 62). lia. }
    rewrite Hc.
    destruct (IH (result ++ String c "")%string
                (mkWorld (store w) (calls w) (Datatypes.S (draws w)) (currentUser w)))
      as (tail & Heq & Hlen & Hall).
    exists (String c tail). rewrite Heq. cbn [store calls draws currentUser].
    rewrite append_assoc, append_cons. cbn [String.length all_chars].
    rewrite Hlen, Hal, Hall. repeat split. do 2 f_equal. lia.
Qed.

Lemma generateUID_spec (w : World S) :
  exists id,
    generateUID env w
    = (Js.Return id, mkWorld (store w) (calls w) (draws w + 5) (currentUser w))
    /\ uid_shape id.
Proof.
  destruct (generateUID_loop_spec 5 "" w) as (tail & Heq & Hlen & Hall).
  exists tail. split; [exact Heq|]. split; assumption.
Qed.

End UidFacts.

(** ** Calls to a store that answers *)

Section Available.
Context (env : Env) (Hav : available env).

Lemma remote_available {S A} (op : S -> Js.Outcome A * S) (w : World S) :
  remote env op w
  = (fst (op (store w)),
     mkWorld (snd (op (store w))) (Datatypes.S (calls w)) (draws w) (currentUser w)).
Proof. unfold remote. rewrite Hav. destruct (op (store w)); reflexivity. Qed.

End Available.

(** ** Firestore *)

Section FirestoreFacts.
Import Firestore.
Context (env : Env).

(** *** The collection as a list *)

Lemma filter_all {A} (l : list A) : List.filter (fun _ => true) l = l.
Proof. induction l as [|a l IH]; cbn; congruence. Qed.


Lemma lookupDoc_None (id : string) (c : list Doc) :
  lookupDoc id c = None -> forall d, In d c -> docId d <> id.
Proof.
  unfold lookupDoc. intros H d Hin Heq.
  pose proof (find_none _ _ H d Hin) as Hf. unfold has_id in Hf.
  apply String.eqb_neq in Hf. contradiction.
Qed.

Lemma lookupDoc_distinct (c : list Doc) (d : Doc) :
  distinct_ids c -> In d c -> lookupDoc (docId d) c = Some d.
Proof.
  unfold distinct_ids, lookupDoc. induction c as [|x c IH]; intros Hnd Hin; [destruct Hin|].
  cbn in Hnd. apply NoDup_cons in Hnd as [Hnotin Hnd]. cbn [find].
  unfold has_id at 1. destruct (String.eqb (docId x) (docId d)) eqn:E.
  - apply String.eqb_eq in E. destruct Hin as [->|Hin]; [reflexivity|].
    exfalso. apply Hnotin. rewrite E. apply list_elem_of_In. now apply in_map.
  - destruct Hin as [->|Hin]; [rewrite String.eqb_refl in E; discriminate|].
    now apply IH.
Qed.

Lemma writeDoc_fresh (id : string) (data : Team) (c : list Doc) :
  lookupDoc id c = None -> writeDoc id data c = c ++ [mkDoc id data].
Proof.
  unfold lookupDoc. induction c as [|x c IH]; cbn; [reflexivity|].
  destruct (has_id id x); [discriminate|]. intros H. now rewrite IH.
Qed.

Lemma lookupDoc_writeDoc (id : string) (data : Team) (c : list Doc) :
  lookupDoc id (writeDoc id data c) = Some (mkDoc id data).
Proof.
  unfold lookupDoc. induction c as [|x c IH]; cbn.
  - unfold has_id. cbn. now rewrite String.eqb_refl.
  - destruct (has_id id x) eqn:E; cbn.
    + unfold has_id. cbn. now rewrite String.eqb_refl.
    + now rewrite E.
Qed.

(** Altering the document of an id replaces one element of the list: the
    first one of that id. *)
Lemma alterDoc_insert (c : list Doc) (d : Doc) (f : Team -> Team) (i : nat) :
  c !! i = Some d ->
  (forall j x, (j < i)%nat -> c !! j = Some x -> docId x <> docId d) ->
  alterDoc (docId d) f c = <[i := mkDoc (docId d) (f (docData d))]> c.
Proof.
  revert i. induction c as [|x c IH]; intros i Hi Hfirst; [discriminate|].
  destruct i as [|i]; cbn in Hi.
  - injection Hi as ->. cbn. unfold has_id. now rewrite String.eqb_refl.
  - cbn. assert (Hx : docId x <> docId d) by (apply (Hfirst 0%nat); [lia|reflexivity]).
    unfold has_id at 1. apply String.eqb_neq in Hx. rewrite Hx. f_equal.
    apply IH; [assumption|]. intros j y Hj Hy. apply (Hfirst (Datatypes.S j)); [lia|exact Hy].
Qed.

(** The first match of a filter sits at an index before which nothing
    matches. *)
Lemma filter_head_index {A} (p : A -> bool) (l : list A) (x : A) (rest : list A) :
  List.filter p l = x :: rest ->
  exists i, l !! i = Some x /\ p x = true
            /\ (forall j y, (j < i)%nat -> l !! j = Some y -> p y = false)
            /\ rest = List.filter p (drop (Datatypes.S i) l).
Proof.
  induction l as [|a l IH]; cbn; [discriminate|].
  destruct (p a) eqn:E.
  - intros H. injection H as -> <-. exists 0%nat. repeat split; [assumption|].
    intros j y Hj. lia.
  - intros H. destruct (IH H) as (i & Hi & Hp & Hbefore & Hrest).
    exists (Datatypes.S i). repeat split; try assumption.
    intros [|j] y Hj Hy; cbn in Hy.
    + now injection Hy as <-.
    + apply (Hbefore j); [lia|assumption].
Qed.

Lemma distinct_ids_lookup (c : list Doc) (i j : nat) (x y : Doc) :
  distinct_ids c -> c !! i = Some x -> c !! j = Some y -> docId x = docId y -> i = j.
Proof.
  unfold distinct_ids. intros Hnd Hi Hj Heq.
  apply (NoDup_lookup (List.map docId c) i j (docId x)).
  - assumption.
  - change (List.map docId c) with (docId <$> c). rewrite list_lookup_fmap, Hi. reflexivity.
  - change (List.map docId c) with (docId <$> c). rewrite list_lookup_fmap, Hj, Heq. reflexivity.
Qed.

End FirestoreFacts.

Section FirestoreCalls.
Import Firestore.
Context (env : Env) (Hav : available env).



(** [updateScore] when the query finds the uid: the first document it
    returns is replaced by the same document with the increment added to its
    score; two calls to the store are made. *)
Lemma updateScore_found (uid' : string) (n : Z) (w : World (list Doc))
      (d : Doc) (rest : list Doc) :
  distinct_ids (store w) ->
  uid_matches (store w) uid' = d :: rest ->
  exists i,
    store w !! i = Some d
    /\ (forall j y, (j < i)%nat -> store w !! j = Some y ->
                    String.eqb (uid (docData y)) uid' = false)
    /\ rest = uid_matches (drop (Datatypes.S i) (store w)) uid'
    /\ updateScore env uid' n w
       = (Js.Return true,
          mkWorld (<[i := bump n d]> (store w)) (Datatypes.S (Datatypes.S (calls w)))
                  (draws w) (currentUser w)).
Proof.
  intros Hnd Hq. unfold uid_matches in Hq.
  destruct (filter_head_index _ _ _ _ Hq) as (i & Hi & Hp & Hbefore & Hrest).
  exists i. repeat split; try assumption.
  unfold updateScore, Js.try_catch, Js.bind, getDocs, updateDoc_increment.
  rewrite (remote_available env Hav). cbn [fst snd]. rewrite Hq.
  rewrite (remote_available env Hav). cbn [fst snd store calls draws currentUser].
  assert (Hin : In d (store w)).
  { apply list_elem_of_In. apply list_elem_of_lookup. eauto. }
  rewrite (lookupDoc_distinct _ _ Hnd Hin). cbn [fst snd]. unfold Js.ret.
  rewrite (alterDoc_insert (store w) d _ i Hi).
  - reflexivity.
  - intros j x Hj Hx Heq.
    assert (j = i) by (eapply distinct_ids_lookup; eauto). lia.
Qed.




End FirestoreCalls.

(** *** [registerTeam], documents under the team name

    The call makes its store calls in a fixed order: the name check, the
    e-mail check, the count, the write.  The three lemmas below say what it
    does in every case, store failures included. *)

Section ByNameFacts.
Import Firestore FirestoreByName.
Context (env : Env).

Ltac run_call :=
  unfold remote; cbn [calls store draws currentUser fst snd].

(** The name is taken, or the name check could not be made. *)
Lemma registerTeam_name_refused (teamName' player1' player2' email' phoneNumber' : string)
      (w : World (list Doc)) :
  outage env (calls w) <> None \/ lookupDoc teamName' (store w) <> None ->
  registerTeam env teamName' player1' player2' email' phoneNumber' w
  = (Js.Throw (Js.ErrorObj (name_taken_message teamName')),
     mkWorld (store w) (2 + calls w) (draws w) (currentUser w)).
Proof.
  intros H.
  unfold registerTeam, isTeamNameTaken, isEmailTaken, getDoc, getDocs,
    Js.try_catch, Js.bind, Js.ret, Js.throw, rethrow.
  run_call.
  destruct (outage env (calls w)) as [e|] eqn:E0; run_call.
  - destruct (outage env (Datatypes.S (calls w))); reflexivity.
  - destruct (lookupDoc teamName' (store w)) eqn:El; [|destruct H; congruence].
    destruct (outage env (Datatypes.S (calls w))); reflexivity.
Qed.

(** The name is free, and the e-mail is taken or its check could not be
    made. *)
Lemma registerTeam_email_refused (teamName' player1' player2' email' phoneNumber' : string)
      (w : World (list Doc)) :
  outage env (calls w) = None ->
  lookupDoc teamName' (store w) = None ->
  outage env (Datatypes.S (calls w)) <> None
  \/ List.filter (fun d => String.eqb (email (docData d)) email') (store w) <> [] ->
  registerTeam env teamName' player1' player2' email' phoneNumber' w
  = (Js.Throw (Js.ErrorObj email_taken_message),
     mkWorld (store w) (2 + calls w) (draws w) (currentUser w)).
Proof.
  intros H0 Hname H.
  unfold registerTeam, isTeamNameTaken, isEmailTaken, getDoc, getDocs,
    Js.try_catch, Js.bind, Js.ret, Js.throw, rethrow.
  run_call. rewrite H0. run_call. rewrite Hname.
  destruct (outage env (Datatypes.S (calls w))) as [e|] eqn:E1; run_call; [reflexivity|].
  destruct (List.filter (fun d => String.eqb (email (docData d)) email') (store w)) eqn:Ef;
    [destruct H as [H|H]; [congruence|now destruct H]|reflexivity].
Qed.

(** Name and e-mail are free: the team number is the count plus one, or 1
    when the count could not be made; the record is written unless the write
    fails, and then the store's error is thrown again. *)
Lemma registerTeam_proceeds (teamName' player1' player2' email' phoneNumber' : string)
      (w : World (list Doc)) :
  outage env (calls w) = None ->
  lookupDoc teamName' (store w) = None ->
  outage env (Datatypes.S (calls w)) = None ->
  List.filter (fun d => String.eqb (email (docData d)) email') (store w) = [] ->
  exists uid',
    uid_shape uid'
    /\ registerTeam env teamName' player1' player2' email' phoneNumber' w
       = let teamNumber' :=
           match outage env (2 + calls w) with
           | None => Z.of_nat (length (store w)) + 1
           | Some _ => 1
           end in
         let teamData :=
           mkTeam teamNumber' teamName' uid' player1' player2' email' phoneNumber' 0
                  (wallclock env (3 + calls w)) in
         match outage env (3 + calls w) with
         | None =>
             (Js.Return (mkDoc teamName' teamData),
              mkWorld (store w ++ [mkDoc teamName' teamData]) (4 + calls w) (5 + draws w)
                      (currentUser w))
         | Some e =>
             (Js.Throw (if Js.instanceof_Error e then e
                        else Js.ErrorObj "Failed to register team. Please try again."),
              mkWorld (store w) (4 + calls w) (5 + draws w) (currentUser w))
         end.
Proof.
  intros H0 Hname H1 Hmail.
  destruct (generateUID_spec env
              (mkWorld (store w) (2 + calls w) (draws w) (currentUser w)))
    as (uid' & Hgen & Hshape).
  exists uid'. split; [exact Hshape|].
  unfold registerTeam, isTeamNameTaken, isEmailTaken, getNextTeamNumber, getDoc, getDocs,
    setDoc, now, Js.try_catch, Js.bind, Js.ret, Js.throw, rethrow.
  run_call. rewrite H0. run_call. rewrite Hname, H1. run_call. rewrite Hmail.
  cbn [is_empty negb]. cbn [Nat.add] in Hgen. rewrite Hgen.
  cbn [calls store draws currentUser Nat.add].
  rewrite (Nat.add_comm (draws w) 5). cbn [Nat.add].
  destruct (outage env (Datatypes.S (Datatypes.S (calls w)))) as [e2|]; run_call;
    (destruct (outage env (Datatypes.S (Datatypes.S (Datatypes.S (calls w))))) as [e3|];
     run_call; [destruct e3; reflexivity|]);
    rewrite ?filter_all, (writeDoc_fresh _ _ _ Hname); reflexivity.
Qed.

End ByNameFacts.

(** *** [registerTeam], documents under an id of the store's choosing *)

Section AutoIdFacts.
Import Firestore FirestoreAutoId.
Context (env : Env).

Ltac run_call :=
  unfold remote; cbn [calls store draws currentUser fst snd].

Lemma registerTeam_auto_name_refused
      (teamName' player1' player2' email' phoneNumber' : string) (w : World (list Doc)) :
  outage env (calls w) <> None
  \/ List.filter (fun d => String.eqb (teamName (docData d)) teamName') (store w) <> [] ->
  registerTeam env teamName' player1' player2' email' phoneNumber' w
  = (Js.Throw (Js.ErrorObj (name_taken_message teamName')),
     mkWorld (store w) (2 + calls w) (draws w) (currentUser w)).
Proof.
  intros H.
  unfold registerTeam, isTeamNameTaken, isEmailTaken, getDocs,
    Js.try_catch, Js.bind, Js.ret, Js.throw, rethrow.
  run_call.
  destruct (outage env (calls w)) as [e|] eqn:E0; run_call.
  - destruct (outage env (Datatypes.S (calls w))); reflexivity.
  - destruct (List.filter (fun d => String.eqb (teamName (docData d)) teamName') (store w))
      eqn:El; [destruct H as [H|H]; [congruence|now destruct H]|].
    destruct (outage env (Datatypes.S (calls w))); reflexivity.
Qed.

Lemma registerTeam_auto_email_refused
      (teamName' player1' player2' email' phoneNumber' : string) (w : World (list Doc)) :
  outage env (calls w) = None ->
  List.filter (fun d => String.eqb (teamName (docData d)) teamName') (store w) = [] ->
  outage env (Datatypes.S (calls w)) <> None
  \/ List.filter (fun d => String.eqb (email (docData d)) email') (store w) <> [] ->
  registerTeam env teamName' player1' player2' email' phoneNumber' w
  = (Js.Throw (Js.ErrorObj email_taken_message),
     mkWorld (store w) (2 + calls w) (draws w) (currentUser w)).
Proof.
  intros H0 Hname H.
  unfold registerTeam, isTeamNameTaken, isEmailTaken, getDocs,
    Js.try_catch, Js.bind, Js.ret, Js.throw, rethrow.
  run_call. rewrite H0. run_call. rewrite Hname.
  destruct (outage env (Datatypes.S (calls w))) as [e|] eqn:E1; run_call; [reflexivity|].
  destruct (List.filter (fun d => String.eqb (email (docData d)) email') (store w)) eqn:Ef;
    [destruct H as [H|H]; [congruence|now destruct H]|reflexivity].
Qed.

Lemma registerTeam_auto_proceeds
      (teamName' player1' player2' email' phoneNumber' : string) (w : World (list Doc)) :
  outage env (calls w) = None ->
  List.filter (fun d => String.eqb (teamName (docData d)) teamName') (store w) = [] ->
  outage env (Datatypes.S (calls w)) = None ->
  List.filter (fun d => String.eqb (email (docData d)) email') (store w) = [] ->
  exists uid',
    uid_shape uid'
    /\ registerTeam env teamName' player1' player2' email' phoneNumber' w
       = let teamNumber' :=
           match outage env (2 + calls w) with
           | None => Z.of_nat (length (store w)) + 1
           | Some _ => 1
           end in
         let teamData :=
           mkTeam teamNumber' teamName' uid' player1' player2' email' phoneNumber' 0
                  (wallclock env (3 + calls w)) in
         match outage env (3 + calls w) with
         | None =>
             (Js.Return (mkDoc (autoId env (3 + calls w)) teamData),
              mkWorld (store w ++ [mkDoc (autoId env (3 + calls w)) teamData])
                      (4 + calls w) (5 + draws w) (currentUser w))
         | Some e =>
             (Js.Throw (if Js.instanceof_Error e then e
                        else Js.ErrorObj "Failed to register team. Please try again."),
              mkWorld (store w) (4 + calls w) (5 + draws w) (currentUser w))
         end.
Proof.
  intros H0 Hname H1 Hmail.
  destruct (generateUID_spec env
              (mkWorld (store w) (2 + calls w) (draws w) (currentUser w)))
    as (uid' & Hgen & Hshape).
  exists uid'. split; [exact Hshape|].
  unfold registerTeam, isTeamNameTaken, isEmailTaken, getNextTeamNumber, getDocs,
    addDoc, now, Js.try_catch, Js.bind, Js.ret, Js.throw, rethrow.
  run_call. rewrite H0. run_call. rewrite Hname, H1. run_call. rewrite Hmail.
  cbn [is_empty negb]. cbn [Nat.add] in Hgen. rewrite Hgen.
  cbn [calls store draws currentUser Nat.add].
  rewrite (Nat.add_comm (draws w) 5). cbn [Nat.add].
  destruct (outage env (Datatypes.S (Datatypes.S (calls w)))) as [e2|]; run_call;
    (destruct (outage env (Datatypes.S (Datatypes.S (Datatypes.S (calls w))))) as [e3|];
     run_call; [destruct e3; reflexivity|]);
    rewrite ?filter_all; reflexivity.
Qed.

End AutoIdFacts.

(** ** Realtime Database *)

Section RealtimeDbFacts.
Import RealtimeDb.
Context (env : Env) (Hav : available env).

Ltac run_call :=
  unfold remote; rewrite ?Hav; cbn [calls store draws currentUser fst snd].


Lemma ensureAuth_available (w : World Root) :
  ensureAuth env w = (Js.Return tt, signed_in w).
Proof.
  unfold ensureAuth, signed_in, signInAnonymously, Js.try_catch, Js.ret.
  destruct (currentUser w); [reflexivity|]. now rewrite Hav.
Qed.

Lemma signed_in_currentUser {S} (w : World S) : currentUser (signed_in w) = true.
Proof. unfold signed_in. destruct (currentUser w) eqn:E; [exact E|reflexivity]. Qed.

Lemma signed_in_store {S} (w : World S) : store (signed_in w) = store w.
Proof. unfold signed_in. destruct (currentUser w); reflexivity. Qed.

Lemma signed_in_draws {S} (w : World S) : draws (signed_in w) = draws w.
Proof. unfold signed_in. destruct (currentUser w); reflexivity. Qed.

Lemma signed_in_idem {S} (w : World S) : currentUser w = true -> signed_in w = w.
Proof. unfold signed_in. now intros ->. Qed.


Lemma isTeamNameTaken_available (teamName' : string) (w : World Root) :
  currentUser w = true ->
  isTeamNameTaken env teamName' w
  = (Js.Return (name_in_root (store w) teamName'),
     mkWorld (store w) (Datatypes.S (calls w)) (draws w) true).
Proof.
  intros Hu. unfold isTeamNameTaken, Js.try_catch, Js.bind, get_root, name_in_root, exists_root.
  rewrite ensureAuth_available, (signed_in_idem _ Hu). run_call. rewrite Hu.
  destruct (map_to_list (store w)); reflexivity.
Qed.

Lemma isEmailTaken_available (email' : string) (w : World Root) :
  currentUser w = true ->
  isEmailTaken env email' w
  = (Js.Return (email_in_root (store w) email'),
     mkWorld (store w) (Datatypes.S (calls w)) (draws w) true).
Proof.
  intros Hu. unfold isEmailTaken, Js.try_catch, Js.bind, get_root, email_in_root, exists_root.
  rewrite ensureAuth_available, (signed_in_idem _ Hu). run_call. rewrite Hu.
  destruct (map_to_list (store w)); reflexivity.
Qed.


(** [registerTeam] against a store that answers. *)
Lemma registerTeam_rtdb_name_refused
      (teamName' player1' player2' email' phoneNumber' : string) (w : World Root) :
  name_in_root (store w) teamName' = true ->
  registerTeam env teamName' player1' player2' email' phoneNumber' w
  = (Js.Throw (Js.ErrorObj (name_taken_message teamName')),
     mkWorld (store w) (2 + calls (signed_in w)) (draws w) true).
Proof.
  intros Hname. unfold registerTeam, Js.try_catch, Js.bind.
  rewrite ensureAuth_available.
  rewrite isTeamNameTaken_available by apply signed_in_currentUser.
  rewrite isEmailTaken_available by reflexivity.
  cbn [store calls draws]. rewrite signed_in_store, signed_in_draws, Hname. reflexivity.
Qed.





Lemma getAllTeams_available (w : World Root) :
  getAllTeams env w
  = (Js.Return (sort compareTeams (teamNodes (store w))),
     mkWorld (store w) (1 + calls (signed_in w)) (draws w) true).
Proof.
  unfold getAllTeams, Js.try_catch, Js.bind, get_root, exists_root, teamNodes, Js.ret.
  rewrite ensureAuth_available. run_call.
  rewrite signed_in_store, signed_in_draws, signed_in_currentUser.
  destruct (map_to_list (store w)); reflexivity.
Qed.

End RealtimeDbFacts.

(** ** Sorting the scoreboard *)

Section SortFacts.
Import RealtimeDb.

Lemma compareTeams_order (a b : Team) :
  compareTeams a b <= 0 <-> scoreboard_order a b.
Proof.
  unfold compareTeams, scoreboard_order.
  destruct (score b =? score a) eqn:E; cbn [negb]; lia.
Qed.

Lemma scoreboard_order_total (a b : Team) :
  ~ scoreboard_order a b -> scoreboard_order b a.
Proof. unfold scoreboard_order. lia. Qed.

Lemma scoreboard_order_trans (a b c : Team) :
  scoreboard_order a b -> scoreboard_order b c -> scoreboard_order a c.
Proof. unfold scoreboard_order. lia. Qed.

Lemma sort_insert_perm (cmp : Team -> Team -> Z) (x : Team) (l : list Team) :
  Permutation (sort_insert cmp x l) (x :: l).
Proof.
  induction l as [|y l IH]; cbn [sort_insert]; [reflexivity|].
  destruct (cmp x y <=? 0); [reflexivity|].
  rewrite IH. apply perm_swap.
Qed.

Lemma sort_perm (cmp : Team -> Team -> Z) (l : list Team) :
  Permutation (sort cmp l) l.
Proof.
  induction l as [|x l IH]; cbn [sort]; [reflexivity|].
  rewrite sort_insert_perm. now apply perm_skip.
Qed.

Lemma sort_insert_sorted (x : Team) (l : list Team) :
  StronglySorted scoreboard_order l ->
  StronglySorted scoreboard_order (sort_insert compareTeams x l).
Proof.
  induction l as [|y l IH]; intros Hs; cbn [sort_insert].
  - constructor; constructor.
  - apply StronglySorted_inv in Hs as [Hs Hy].
    destruct (compareTeams x y <=? 0) eqn:E.
    + apply Z.leb_le, compareTeams_order in E.
      constructor; [constructor; assumption|].
      constructor; [exact E|].
      eapply Forall_impl; [exact Hy|]. intros z Hz.
      eapply scoreboard_order_trans; eassumption.
    + apply Z.leb_gt in E.
      assert (Hyx : scoreboard_order y x).
      { apply scoreboard_order_total. rewrite <- compareTeams_order. lia. }
      constructor; [now apply IH|].
      eapply Permutation_Forall; [symmetry; apply sort_insert_perm|].
      constructor; assumption.
Qed.

Lemma sort_sorted (l : list Team) :
  StronglySorted scoreboard_order (sort compareTeams l).
Proof.
  induction l as [|x l IH]; cbn [sort]; [constructor|].
  now apply sort_insert_sorted.
Qed.

(** When every node has a team name, the loop keeps every node. *)
Lemma teamNodes_all (r : gmap string Team) :
  (forall k t, r !! k = Some t -> teamName t <> ""%string) ->
  teamNodes r = List.map snd (map_to_list r).
Proof.
  intros Hall. unfold teamNodes. f_equal.
  assert (H : forall kv, In kv (map_to_list r) -> truthy_string (teamName (snd kv)) = true).
  { intros [k t] Hin. apply list_elem_of_In, elem_of_map_to_list in Hin.
    unfold truthy_string. cbn. apply Hall in Hin.
    apply String.eqb_neq in Hin. now rewrite Hin. }
  induction (map_to_list r) as [|kv l IH]; cbn; [reflexivity|].
  rewrite (H kv) by now left. f_equal. apply IH. intros kv' Hin. apply H. now right.
Qed.

End SortFacts.

(** ** Facts about the examples *)

Lemma calm_available : available Examples.calm.
Proof. intros n. reflexivity. Qed.


Lemma colliding_distinct_ids : distinct_ids (store Examples.colliding).
Proof.
  unfold distinct_ids. cbn. repeat (apply NoDup_cons; split); try apply NoDup_nil_2;
    rewrite ?elem_of_cons, ?elem_of_nil; intuition discriminate.
Qed.

(** * The score update *)



(** C10 -- when several documents carry the same uid, [updateScore] adds
    the increment to exactly one of them, the first the query returns, and
    leaves every other document as it was, the other documents with that uid
    included. *)
Theorem updateScore_touches_first_match_only (env : Env) :
  available env ->
  forall (w : World (list Firestore.Doc)) (uid' : string) (n : Z)
         (d : Firestore.Doc) (rest : list Firestore.Doc),
    distinct_ids (store w) ->
    uid_matches (store w) uid' = d :: rest ->
    exists i w',
      Firestore.updateScore env uid' n w = (Js.Return true, w')
      /\ store w !! i = Some d
      /\ (forall j y, (j < i)%nat -> store w !! j = Some y ->
                      uid (Firestore.docData y) <> uid')
      /\ store w' = <[i := bump n d]> (store w)
      /\ (forall j, j <> i -> store w' !! j = store w !! j)
      /\ Forall (fun d' => exists j, j <> i /\ store w !! j = Some d' /\ store w' !! j = Some d')
                rest.
Proof.
  intros Hav w uid' n d rest Hnd Hq.
  destruct (updateScore_found env Hav uid' n w d rest Hnd Hq)
    as (i & Hi & Hbefore & Hrest & Hrun).
  exists i. eexists. split; [exact Hrun|]. cbn [store].
  split; [exact Hi|]. split; [|split; [reflexivity|split]].
  - intros j y Hj Hy Heq. specialize (Hbefore j y Hj Hy).
    apply String.eqb_neq in Hbefore. contradiction.
  - intros j Hj. now apply list_lookup_insert_ne.
  - apply Forall_forall. intros d' Hd'. rewrite Hrest in Hd'.
    unfold uid_matches in Hd'. apply list_elem_of_In, filter_In in Hd' as [Hin _].
    apply list_elem_of_In, list_elem_of_lookup in Hin as [k Hk].
    rewrite lookup_drop in Hk.
    exists (Datatypes.S i + k)%nat. split; [lia|]. split; [exact Hk|].
    rewrite list_lookup_insert_ne by lia. exact Hk.
Qed.

(** Two documents carry [qK234]: the first goes from 10 to 15, the second
    stays at 20. *)
Lemma updateScore_touches_first_match_only_witness :
  exists i w',
    Firestore.updateScore Examples.calm "qK234" 5 Examples.colliding = (Js.Return true, w')
    /\ store Examples.colliding !! i
       = Some (Firestore.mkDoc "Alpha" (Examples.team 1 "Alpha" "qK234" "alpha@example.com" 10))
    /\ store w'
       = <[i := Firestore.mkDoc "Alpha" (Examples.team 1 "Alpha" "qK234" "alpha@example.com" 15)]>
           (store Examples.colliding)
    /\ Forall (fun d' => exists j, j <> i /\ store Examples.colliding !! j = Some d'
                                   /\ store w' !! j = Some d')
              [Firestore.mkDoc "Beta" (Examples.team 2 "Beta" "qK234" "beta@example.com" 20)].
Proof.
  destruct (updateScore_touches_first_match_only Examples.calm calm_available
              Examples.colliding "qK234" 5 _ _ colliding_distinct_ids eq_refl)
    as (i & w' & Hrun & Hi & _ & Hs & _ & Hrest).
  exists i, w'. repeat split; assumption.
Defined.

(** * The scoreboard *)

(** C4 -- the scoreboard list (the Realtime Database version, which sorts in
    the program) returns exactly the team records of the store, sorted by
    score descending and, among equal scores, by team number ascending; the
    team records are the nodes that have a team name, which is all of them
    when every node has one.  For scores [50, 50, 10] with team numbers
    [2, 1, 3] the order is team 1, team 2, team 3. *)
Theorem getAllTeams_sorted_scoreboard (env : Env) :
  available env ->
  (forall w : World (gmap string Team),
      exists teams w',
        RealtimeDb.getAllTeams env w = (Js.Return teams, w')
        /\ store w' = store w
        /\ Permutation teams (RealtimeDb.teamNodes (store w))
        /\ ((forall k t, store w !! k = Some t -> teamName t <> ""%string) ->
            Permutation teams (List.map snd (map_to_list (store w))))
        /\ StronglySorted scoreboard_order teams)
  /\ fst (RealtimeDb.getAllTeams env Examples.three_nodes)
     = Js.Return [Examples.team 1 "One" "bbbbb" "one@example.com" 50;
                  Examples.team 2 "Two" "aaaaa" "two@example.com" 50;
                  Examples.team 3 "Three" "ccccc" "three@example.com" 10].
Proof.
  intros Hav. split.
  - intros w. do 2 eexists. split; [apply (getAllTeams_available env Hav)|].
    cbn [store]. split; [reflexivity|]. split; [apply sort_perm|]. split.
    + intros Hall. rewrite <- (teamNodes_all _ Hall). apply sort_perm.
    + apply sort_sorted.
  - rewrite (getAllTeams_available env Hav). cbn [fst]. f_equal.
Qed.

Lemma getAllTeams_sorted_scoreboard_witness :
  fst (RealtimeDb.getAllTeams Examples.calm Examples.three_nodes)
  = Js.Return [Examples.team 1 "One" "bbbbb" "one@example.com" 50;
               Examples.team 2 "Two" "aaaaa" "two@example.com" 50;
               Examples.team 3 "Three" "ccccc" "three@example.com" 10].
Proof.
  exact (proj2 (getAllTeams_sorted_scoreboard Examples.calm calm_available)).
Defined.

(** * The score endpoint *)

Section UpdateScoreHandlerFacts.
Context {W : Type} (env : Env) (updateScore : string -> Z -> Js.M W bool).


End UpdateScoreHandlerFacts.

(** C9 -- a [POST /api/update-score] whose [scoreIncrement] is a number
    outside [-1,000,000, 1,000,000] is answered with status 400 and an
    error body, whichever library is linked, and the world is left exactly
    as it was: [updateScore] is not called. *)
Theorem update_score_out_of_bounds_rejected {W : Type} (env : Env)
        (updateScore : string -> Z -> Js.M W bool)
        (req : Api.Request Api.UpdateScoreBody) (b : Api.UpdateScoreBody)
        (n : Js.JsNumber) (w : W) :
  Api.method req = "POST"%string ->
  Api.body req = Some b ->
  Api.body_scoreIncrement b = Js.JNumber n ->
  outside_bounds n ->
  exists message,
    Api.UpdateScore.handler env updateScore req w
    = (Api.mkResponse 400 (Api.ErrorResponse message), w).
Proof.
  intros Hm Hb Hn Hout.
  unfold Api.UpdateScore.handler, Api.UpdateScore.handler_try. rewrite Hm, Hb, Hn.
  cbn [String.eqb Ascii.eqb Bool.eqb negb]. unfold Js.ret.
  destruct (Js.truthy (Api.body_uid b)); cbn [negb]; [|eexists; reflexivity].
  destruct (Api.body_uid b); try (eexists; reflexivity).
  destruct n as [z| | |]; cbn in Hout |- *; try (eexists; reflexivity).
  destruct (z <? -1000000) eqn:E1; cbn [orb]; [eexists; reflexivity|].
  destruct (1000000 <? z) eqn:E2; [eexists; reflexivity|]. lia.
Qed.

(** An increment of 2,000,000 on a collection with teams: 400, and the
    collection is untouched. *)
Lemma update_score_out_of_bounds_rejected_witness :
  exists message,
    Api.UpdateScore.handler Examples.calm (Firestore.updateScore Examples.calm)
      (Examples.post_update_score "qK234" (Js.Int 2000000)) Examples.colliding
    = (Api.mkResponse 400 (Api.ErrorResponse message), Examples.colliding).
Proof.
  apply (update_score_out_of_bounds_rejected Examples.calm
           (Firestore.updateScore Examples.calm)
           (Examples.post_update_score "qK234" (Js.Int 2000000)) _ (Js.Int 2000000)
           Examples.colliding eq_refl eq_refl eq_refl).
  right. reflexivity.
Defined.

(** * Registration *)

Section RegistrationFacts.
Import Firestore.


Lemma filter_not_nil {A} (p : A -> bool) (l : list A) (x : A) :
  In x l -> p x = true -> List.filter p l <> [].
Proof.
  intros Hin Hp Hnil. assert (Hx : In x (List.filter p l)) by (apply filter_In; tauto).
  rewrite Hnil in Hx. destruct Hx.
Qed.

Lemma lookupDoc_some (id : string) (c : list Doc) (d : Doc) :
  In d c -> docId d = id -> lookupDoc id c <> None.
Proof.
  intros Hin Hid Hnone. apply (lookupDoc_None _ _ Hnone d Hin Hid).
Qed.






Lemma name_in_root_true (r : gmap string Team) (k : string) (t : Team) :
  r !! k = Some t -> name_in_root r (teamName t) = true.
Proof.
  intros H. unfold name_in_root. apply existsb_exists. exists (k, t). split.
  - now apply list_elem_of_In, elem_of_map_to_list.
  - apply String.eqb_refl.
Qed.

End RegistrationFacts.



(** C3 -- when the store already holds a record with the team name, a
    registration with that same name (compared character by character) fails
    with the duplicate-name error that quotes the name, and the store is as
    before: no second record.  In the three versions of the library; the
    first one finds the record because it is stored under its name. *)
Theorem registerTeam_duplicate_name_refused (env : Env) :
  (forall (w : World (list Firestore.Doc)) (d : Firestore.Doc)
          (player1' player2' email' phoneNumber' : string),
      keyed_by_name (store w) ->
      In d (store w) ->
      exists w',
        FirestoreByName.registerTeam env (teamName (Firestore.docData d))
                                     player1' player2' email' phoneNumber' w
        = (Js.Throw (Js.ErrorObj (name_taken_message (teamName (Firestore.docData d)))), w')
        /\ store w' = store w)
  /\
  (forall (w : World (list Firestore.Doc)) (d : Firestore.Doc)
          (player1' player2' email' phoneNumber' : string),
      In d (store w) ->
      exists w',
        FirestoreAutoId.registerTeam env (teamName (Firestore.docData d))
                                     player1' player2' email' phoneNumber' w
        = (Js.Throw (Js.ErrorObj (name_taken_message (teamName (Firestore.docData d)))), w')
        /\ store w' = store w)
  /\
  (available env ->
   forall (w : World (gmap string Team)) (k : string) (t : Team)
          (player1' player2' email' phoneNumber' : string),
      store w !! k = Some t ->
      exists w',
        RealtimeDb.registerTeam env (teamName t) player1' player2' email' phoneNumber' w
        = (Js.Throw (Js.ErrorObj (name_taken_message (teamName t))), w')
        /\ store w' = store w).
Proof.
  split; [|split].
  - intros w d p1 p2 m ph Hk Hin. eexists. split.
    + apply registerTeam_name_refused. right.
      apply (lookupDoc_some _ _ d Hin). now apply Hk.
    + reflexivity.
  - intros w d p1 p2 m ph Hin. eexists. split.
    + apply registerTeam_auto_name_refused. right.
      apply (filter_not_nil _ _ d Hin). apply String.eqb_refl.
    + reflexivity.
  - intros Hav w k t p1 p2 m ph Ht. eexists. split.
    + apply (registerTeam_rtdb_name_refused env Hav). eapply name_in_root_true; eauto.
    + reflexivity.
Qed.

(** A second [Alpha], with another e-mail: refused, and the collection is
    as before. *)
Lemma registerTeam_duplicate_name_refused_witness :
  exists w',
    FirestoreByName.registerTeam Examples.calm "Alpha" "Ann" "Al" "other@example.com"
                                 "+1234567890" Examples.one_team
    = (Js.Throw (Js.ErrorObj (name_taken_message "Alpha")), w')
    /\ store w' = store Examples.one_team.
Proof.
  apply (proj1 (registerTeam_duplicate_name_refused Examples.calm) Examples.one_team
               (Firestore.mkDoc "Alpha" (Examples.team 1 "Alpha" "qK234" "alpha@example.com" 0))).
  - intros d [<-|[]]. reflexivity.
  - left. reflexivity.
Defined.

(** The comparison is case-sensitive: [alpha] is not [Alpha]. *)
Example registerTeam_other_case_accepted :
  exists doc w',
    FirestoreByName.registerTeam Examples.calm "alpha" "Ann" "Al" "other@example.com"
                                 "+1234567890" Examples.one_team
    = (Js.Return doc, w')
    /\ length (store w') = 2%nat.
Proof. do 2 eexists. split; [vm_compute; reflexivity|reflexivity]. Qed.

(** ** Team numbers over a run of registrations *)

Section RunFacts.
Import Scenario.
Context {W R : Type}.
Context (registerTeam : string -> string -> string -> string -> string -> Js.M W R).
Context (size : W -> nat) (number : R -> Z).

(** Every call either fails and leaves the count as it is, or returns a
    record numbered count + 1 and raises the count by one. *)
Hypothesis step :
  forall q w,
    (exists e w', register registerTeam q w = (Js.Throw e, w') /\ size w' = size w)
    \/ (exists r w', register registerTeam q w = (Js.Return r, w')
                     /\ number r = Z.of_nat (size w) + 1
                     /\ size w' = Datatypes.S (size w)).



End RunFacts.

Section RunSteps.
Import Scenario.
Context (env : Env) (Hav : available env).






End RunSteps.




(** * The registration endpoint and the form *)

Section RegisterHandlerFacts.
Context {W R : Type} (env : Env).
Context (registerTeam : string -> string -> string -> string -> string -> Js.M W R).
Context (team_of : R -> Team).

(** Whatever the [try] block throws is answered with status 500 and the
    message of the error. *)
Lemma register_handler_throw (req : Api.Request Api.RegisterBody) (w w' : W)
      (e : Js.Thrown) :
  Api.method req = "POST"%string ->
  Api.Register.handler_try env registerTeam team_of req w = (Js.Throw e, w') ->
  Api.Register.handler env registerTeam team_of req w
  = (Api.mkResponse 500 (Api.ErrorResponse (Js.message_or e "Internal server error")), w').
Proof.
  intros Hm Ht. unfold Api.Register.handler. rewrite Hm, Ht. reflexivity.
Qed.

(** A body of five non-empty strings whose e-mail and phone number match
    the patterns reaches [registerTeam], with the fields trimmed. *)
Lemma register_try_valid (teamName' player1' player2' email' phoneNumber' : string) (w : W) :
  teamName' <> ""%string -> player1' <> ""%string -> player2' <> ""%string ->
  email' <> ""%string -> phoneNumber' <> ""%string ->
  Js.test Js.emailRegex (Js.trim email') = true ->
  Js.test Js.phoneRegex (Js.trim phoneNumber') = true ->
  Api.Register.handler_try env registerTeam team_of
    (Api.mkRequest "POST"
       (Some (Api.mkRegisterBody (Js.JString teamName') (Js.JString player1')
                (Js.JString player2') (Js.JString email') (Js.JString phoneNumber')))) w
  = Js.bind (registerTeam (Js.trim teamName') (Js.trim player1') (Js.trim player2')
                          (Js.trim email') (Js.trim phoneNumber'))
      (fun team =>
         let t := team_of team in
         Js.ret (Api.mkResponse 201 (Api.SuccessResponse
           (Api.mkRegisterData (teamNumber t) (teamName t) (uid t) (player1 t) (player2 t)
                               (email t) (phoneNumber t) (score t))))) w.
Proof.
  intros H1 H2 H3 H4 H5 He Hp. unfold Api.Register.handler_try.
  cbn [Api.body Api.body_teamName Api.body_player1 Api.body_player2 Api.body_email
       Api.body_phoneNumber Js.truthy].
  apply String.eqb_neq in H1, H2, H3, H4, H5.
  rewrite H1, H2, H3, H4, H5, He, Hp. reflexivity.
Qed.

(** The form refuses a team name that, trimmed, has fewer than 2 or more
    than 30 characters: an error is shown, nothing is registered, and the
    world is as it was. *)
Lemma handleSubmit_rejects_name_length (st : Api.FormState R) (w : W) :
  (String.length (Js.trim (Api.form_teamName (Api.formData st))) < 2
   \/ 30 < String.length (Js.trim (Api.form_teamName (Api.formData st))))%nat ->
  exists message,
    Api.Home.handleSubmit registerTeam st w
    = (Api.mkFormState (Api.formData st) false (Api.registeredTeam st) message, w)
    /\ message <> ""%string.
Proof.
  intros Hlen. unfold Api.Home.handleSubmit, Api.Home.handleSubmit_try, Js.throw.
  destruct (_ || _ || _ || _ || _).
  { eexists. split; [reflexivity|discriminate]. }
  destruct (negb (Js.test Js.emailRegex _)).
  { eexists. split; [reflexivity|discriminate]. }
  destruct (negb (Js.test Js.phoneRegex _)).
  { eexists. split; [reflexivity|discriminate]. }
  destruct ((_ <? 2)%nat || (30 <? _)%nat) eqn:E.
  { eexists. split; [reflexivity|discriminate]. }
  apply orb_false_elim in E as [E1 E2].
  apply Nat.ltb_ge in E1, E2. lia.
Qed.

End RegisterHandlerFacts.

(** C7 -- [POST /api/register] with the name, or with the e-mail, of a team
    that is already registered: the handler answers with status 500 (not 400)
    and the duplicate message; for the name, whatever the store calls do. *)
Theorem register_duplicate_answers_500 (env : Env) :
  (exists w',
      Api.Register.handler env (FirestoreByName.registerTeam env) Firestore.docData
        (Examples.post_register "Alpha" "other@example.com") Examples.one_team
      = (Api.mkResponse 500 (Api.ErrorResponse (name_taken_message "Alpha")), w')
      /\ store w' = store Examples.one_team)
  /\
  (exists w',
      Api.Register.handler Examples.calm (FirestoreByName.registerTeam Examples.calm)
        Firestore.docData
        (Examples.post_register "Beta" "alpha@example.com") Examples.one_team
      = (Api.mkResponse 500 (Api.ErrorResponse email_taken_message), w')
      /\ store w' = store Examples.one_team).
Proof.
  split.
  - eexists. split.
    + apply (register_handler_throw env (FirestoreByName.registerTeam env) Firestore.docData
               _ _ _ (Js.ErrorObj (name_taken_message "Alpha"))); [reflexivity|].
      unfold Examples.post_register. rewrite register_try_valid; try discriminate;
        try (vm_compute; reflexivity).
      unfold Js.bind.
      change (Js.trim "Alpha") with "Alpha"%string.
      rewrite registerTeam_name_refused; [reflexivity|].
      right. discriminate.
    + reflexivity.
  - eexists. split; [vm_compute; reflexivity|reflexivity].
Qed.

(** C8 -- [POST /api/register] with a team name of one character, or of 31:
    the handler does not check the length; it answers 201 and the record is
    in the collection. *)
Theorem register_accepts_names_outside_2_30 :
  let name31 := "ABCDEFGHIJKLMNOPQRSTUVWXYZabcde"%string in
  let short := Api.Register.handler Examples.calm (FirestoreByName.registerTeam Examples.calm)
                 Firestore.docData (Examples.post_register "A" "a@example.com")
                 Examples.empty_collection in
  let long := Api.Register.handler Examples.calm (FirestoreByName.registerTeam Examples.calm)
                Firestore.docData (Examples.post_register name31 "a@example.com")
                Examples.empty_collection in
  (String.length "A" < 2)%nat
  /\ Api.status (fst short) = 201
  /\ List.map (fun d => teamName (Firestore.docData d)) (store (snd short)) = ["A"%string]
  /\ (30 < String.length name31)%nat
  /\ Api.status (fst long) = 201
  /\ List.map (fun d => teamName (Firestore.docData d)) (store (snd long)) = [name31].
Proof.
  cbv zeta. repeat split; try (vm_compute; reflexivity); cbn; lia.
Qed.

(** * Registration while the store fails *)




(** * Invariants of the collection keyed by team name

    The hypotheses [keyed_by_name] and [distinct_ids] used above hold of the
    empty collection and are kept by [registerTeam] (first version) and by
    [updateScore], whatever the store calls do. *)

Section Invariants.
Import Firestore.
Context (env : Env).

Lemma registerTeam_store_cases (teamName' player1' player2' email' phoneNumber' : string)
      (w : World (list Doc)) :
  let r := FirestoreByName.registerTeam env teamName' player1' player2' email' phoneNumber' w in
  store (snd r) = store w
  \/ (lookupDoc teamName' (store w) = None
      /\ exists data, teamName data = teamName'
                      /\ store (snd r) = store w ++ [mkDoc teamName' data]).
Proof.
  cbv zeta.
  destruct (outage env (calls w)) as [e0|] eqn:E0.
  { left. rewrite registerTeam_name_refused by (left; congruence). reflexivity. }
  destruct (lookupDoc teamName' (store w)) as [d|] eqn:En.
  { left. rewrite registerTeam_name_refused by (right; congruence). reflexivity. }
  destruct (outage env (Datatypes.S (calls w))) as [e1|] eqn:E1.
  { left. rewrite registerTeam_email_refused by (try assumption; left; congruence).
    reflexivity. }
  destruct (List.filter (fun d => String.eqb (email (docData d)) email') (store w)) eqn:Em.
  2:{ left. rewrite registerTeam_email_refused;
        [reflexivity|assumption|assumption|right; rewrite Em; discriminate]. }
  destruct (registerTeam_proceeds env teamName' player1' player2' email' phoneNumber' w
              E0 En E1 Em) as (uid' & _ & Hrun).
  cbv zeta in Hrun. rewrite Hrun.
  destruct (outage env (3 + calls w)); [left; reflexivity|].
  right. split; [reflexivity|]. eexists. split; [|reflexivity]. reflexivity.
Qed.

Lemma keyed_by_name_nil : keyed_by_name [].
Proof. intros d []. Qed.

Lemma distinct_ids_nil : distinct_ids [].
Proof. apply NoDup_nil_2. Qed.

Lemma registerTeam_keeps_keyed_by_name
      (teamName' player1' player2' email' phoneNumber' : string) (w : World (list Doc)) :
  keyed_by_name (store w) ->
  keyed_by_name
    (store (snd (FirestoreByName.registerTeam env teamName' player1' player2' email'
                   phoneNumber' w))).
Proof.
  intros Hk.
  destruct (registerTeam_store_cases teamName' player1' player2' email' phoneNumber' w)
    as [->|(_ & data & Hname & ->)]; [exact Hk|].
  intros d Hd. apply in_app_or in Hd as [Hd|[<-|[]]]; [now apply Hk|].
  cbn. now rewrite Hname.
Qed.

Lemma registerTeam_keeps_distinct_ids
      (teamName' player1' player2' email' phoneNumber' : string) (w : World (list Doc)) :
  distinct_ids (store w) ->
  distinct_ids
    (store (snd (FirestoreByName.registerTeam env teamName' player1' player2' email'
                   phoneNumber' w))).
Proof.
  intros Hd.
  destruct (registerTeam_store_cases teamName' player1' player2' email' phoneNumber' w)
    as [->|(Hfree & data & _ & ->)]; [exact Hd|].
  unfold distinct_ids in *. rewrite map_app. cbn [List.map docId].
  apply NoDup_app. split; [exact Hd|]. split; [|apply NoDup_singleton].
  intros id Hin Hid. apply list_elem_of_singleton in Hid. subst id.
  apply list_elem_of_In, in_map_iff in Hin as (d & Hid & Hin).
  exact (lookupDoc_None _ _ Hfree d Hin Hid).
Qed.

Lemma alterDoc_map_docId (id : string) (f : Team -> Team) (c : list Doc) :
  List.map docId (alterDoc id f c) = List.map docId c.
Proof.
  induction c as [|d c IH]; cbn; [reflexivity|].
  destruct (has_id id d) eqn:E; cbn; [|now rewrite IH].
  unfold has_id in E. apply String.eqb_eq in E. now rewrite E.
Qed.

Lemma alterDoc_score_keyed (id : string) (n : Z) (c : list Doc) :
  keyed_by_name c ->
  keyed_by_name (alterDoc id (fun t => with_score t (score t + n)) c).
Proof.
  induction c as [|d c IH]; intros Hk; cbn; [exact Hk|].
  assert (Hc : keyed_by_name c) by (intros x Hx; apply Hk; now right).
  destruct (has_id id d) eqn:E.
  - intros x [<-|Hx]; [|apply Hk; now right].
    cbn. unfold has_id in E. apply String.eqb_eq in E. rewrite <- E. apply Hk. now left.
  - intros x [<-|Hx]; [apply Hk; now left|now apply IH].
Qed.

Lemma updateScore_keeps_invariants (uid' : string) (n : Z) (w : World (list Doc)) :
  keyed_by_name (store w) /\ distinct_ids (store w) ->
  keyed_by_name (store (snd (updateScore env uid' n w)))
  /\ distinct_ids (store (snd (updateScore env uid' n w))).
Proof.
  intros [Hk Hd].
  unfold updateScore, Js.try_catch, Js.bind, getDocs, updateDoc_increment, remote, Js.throw.
  destruct (outage env (calls w)); cbn [store calls fst snd]; [now split|].
  destruct (List.filter _ (store w)) as [|teamDoc rest]; cbn [store calls fst snd];
    [now split|].
  destruct (outage env (Datatypes.S (calls w))); cbn [store calls fst snd]; [now split|].
  destruct (lookupDoc (docId teamDoc) (store w)); cbn [store calls fst snd]; [|now split].
  split; [now apply alterDoc_score_keyed|].
  unfold distinct_ids, Js.ret. cbn [store fst snd]. now rewrite alterDoc_map_docId.
Qed.

End Invariants.

(** * The patterns of the validation code, on examples *)

Example emailRegex_examples :
  Js.test Js.emailRegex "team@example.com" = true
  /\ Js.test Js.emailRegex "a@b.co.uk" = true
  /\ Js.test Js.emailRegex "team@example" = false
  /\ Js.test Js.emailRegex "te am@example.com" = false
  /\ Js.test Js.emailRegex "a@@example.com" = false
  /\ Js.test Js.emailRegex "@example.com" = false.
Proof. repeat split; vm_compute; reflexivity. Qed.

Example phoneRegex_examples :
  Js.test Js.phoneRegex "+1234567890" = true
  /\ Js.test Js.phoneRegex "(123) 456-7890" = true
  /\ Js.test Js.phoneRegex "123456789" = false
  /\ Js.test Js.phoneRegex "1234567890123456" = false
  /\ Js.test Js.phoneRegex "12345abcde" = false.
Proof. repeat split; vm_compute; reflexivity. Qed.

Example trim_examples :
  Js.trim "  Alpha Team  " = "Alpha Team"%string
  /\ Js.trim "   " = ""%string
  /\ Js.trim "A" = "A"%string.
Proof. repeat split; vm_compute; reflexivity. Qed.

(** * Further properties of the library *)

Section MoreRegistrationFacts.
Import Firestore.


End MoreRegistrationFacts.





Section UpdateScoreFrame.
Import Firestore.
Context (env : Env).





End UpdateScoreFrame.





Section RegistrationOutcomes.
Import Firestore.
Context (env : Env).

(** What [registerTeam] (documents under the team name) does to the
    collection, in every case: nothing when it throws; when it returns, the
    returned document is added at the end, under a name and an e-mail that
    were looked up and found free. *)
Lemma registerTeam_byName_cases
      (teamName' player1' player2' email' phoneNumber' : string) (w : World (list Doc)) :
  let r := FirestoreByName.registerTeam env teamName' player1' player2' email' phoneNumber' w in
  (exists e, fst r = Js.Throw e /\ store (snd r) = store w)
  \/ (exists doc, fst r = Js.Return doc
                  /\ store (snd r) = store w ++ [doc]
                  /\ docId doc = teamName'
                  /\ teamName (docData doc) = teamName'
                  /\ email (docData doc) = email'
                  /\ lookupDoc teamName' (store w) = None
                  /\ List.filter (fun d => String.eqb (email (docData d)) email') (store w) = []).
Proof.
  cbv zeta.
  destruct (outage env (calls w)) as [e0|] eqn:E0.
  { left. rewrite registerTeam_name_refused by (left; congruence). eexists. now split. }
  destruct (lookupDoc teamName' (store w)) as [d|] eqn:En.
  { left. rewrite registerTeam_name_refused by (right; congruence). eexists. now split. }
  destruct (outage env (Datatypes.S (calls w))) as [e1|] eqn:E1.
  { left. rewrite registerTeam_email_refused by (try assumption; left; congruence).
    eexists. now split. }
  destruct (List.filter (fun d => String.eqb (email (docData d)) email') (store w)) eqn:Em.
  2:{ left. rewrite registerTeam_email_refused;
        [eexists; now split|assumption|assumption|right; rewrite Em; discriminate]. }
  destruct (registerTeam_proceeds env teamName' player1' player2' email' phoneNumber' w
              E0 En E1 Em) as (uid' & _ & Hrun).
  cbv zeta in Hrun. rewrite Hrun.
  destruct (outage env (3 + calls w)); [left; eexists; now split|].
  right. eexists. repeat split.
Qed.

Lemma registerTeam_autoId_cases
      (teamName' player1' player2' email' phoneNumber' : string) (w : World (list Doc)) :
  let r := FirestoreAutoId.registerTeam env teamName' player1' player2' email' phoneNumber' w in
  (exists e, fst r = Js.Throw e /\ store (snd r) = store w)
  \/ (exists doc, fst r = Js.Return doc
                  /\ store (snd r) = store w ++ [doc]
                  /\ teamName (docData doc) = teamName'
                  /\ email (docData doc) = email'
                  /\ List.filter (fun d => String.eqb (teamName (docData d)) teamName')
                                 (store w) = []
                  /\ List.filter (fun d => String.eqb (email (docData d)) email') (store w) = []).
Proof.
  cbv zeta.
  destruct (outage env (calls w)) as [e0|] eqn:E0.
  { left. rewrite registerTeam_auto_name_refused by (left; congruence). eexists. now split. }
  destruct (List.filter (fun d => String.eqb (teamName (docData d)) teamName') (store w))
    eqn:En.
  2:{ left. rewrite registerTeam_auto_name_refused;
        [eexists; now split|right; rewrite En; discriminate]. }
  destruct (outage env (Datatypes.S (calls w))) as [e1|] eqn:E1.
  { left. rewrite registerTeam_auto_email_refused by (try assumption; left; congruence).
    eexists. now split. }
  destruct (List.filter (fun d => String.eqb (email (docData d)) email') (store w)) eqn:Em.
  2:{ left. rewrite registerTeam_auto_email_refused;
        [eexists; now split|assumption|assumption|right; rewrite Em; discriminate]. }
  destruct (registerTeam_auto_proceeds env teamName' player1' player2' email' phoneNumber' w
              E0 En E1 Em) as (uid' & _ & Hrun).
  cbv zeta in Hrun. rewrite Hrun.
  destruct (outage env (3 + calls w)); [left; eexists; now split|].
  right. eexists. repeat split.
Qed.

Lemma filter_nil_inv {A} (p : A -> bool) (l : list A) (x : A) :
  List.filter p l = [] -> In x l -> p x = false.
Proof.
  intros Hnil Hin. destruct (p x) eqn:E; [|reflexivity].
  exfalso. now apply (filter_not_nil p l x Hin E).
Qed.

Lemma NoDup_map_snoc {A B} (f : A -> B) (l : list A) (x : A) :
  NoDup (List.map f l) -> (forall y, In y l -> f y <> f x) -> NoDup (List.map f (l ++ [x])).
Proof.
  intros Hnd Hfresh. rewrite map_app. apply NoDup_app. split; [exact Hnd|].
  split; [|apply NoDup_singleton].
  intros b Hb Hx. apply list_elem_of_singleton in Hx. subst b.
  apply list_elem_of_In, in_map_iff in Hb as (y & Hy & Hin). exact (Hfresh y Hin Hy).
Qed.

Lemma register_all_invariant {W R}
      (registerTeam : string -> string -> string -> string -> string -> Js.M W R)
      (Inv : W -> Prop) :
  (forall q w, Inv w -> Inv (snd (Scenario.register registerTeam q w))) ->
  forall qs w, Inv w -> Inv (snd (Scenario.register_all registerTeam qs w)).
Proof.
  intros Hstep qs. induction qs as [|q qs IH]; intros w Hw; [exact Hw|].
  cbn [Scenario.register_all]. specialize (Hstep q w Hw).
  destruct (Scenario.register registerTeam q w) as [r w']. cbn [snd] in Hstep.
  specialize (IH w' Hstep).
  destruct (Scenario.register_all registerTeam qs w') as [rs w'']. exact IH.
Qed.

End RegistrationOutcomes.


(** X6 -- after any run of registrations from an empty collection, whatever
    the store calls do, no two documents have the same team name and no two
    have the same e-mail (both Firestore versions, one call after the
    other). *)
Theorem registrations_keep_names_and_emails_unique (env : Env)
        (qs : list Scenario.Registration) (c0 n0 : nat) (u0 : bool) :
  (let w := snd (Scenario.register_all (FirestoreByName.registerTeam env) qs
                   (mkWorld [] c0 n0 u0)) in
   unique_names (store w) /\ unique_emails (store w))
  /\
  (let w := snd (Scenario.register_all (FirestoreAutoId.registerTeam env) qs
                   (mkWorld [] c0 n0 u0)) in
   unique_names (store w) /\ unique_emails (store w)).
Proof.
  split; cbv zeta.
  - assert (H : keyed_by_name (store (snd (Scenario.register_all
                  (FirestoreByName.registerTeam env) qs (mkWorld [] c0 n0 u0))))
                /\ unique_names (store (snd (Scenario.register_all
                     (FirestoreByName.registerTeam env) qs (mkWorld [] c0 n0 u0))))
                /\ unique_emails (store (snd (Scenario.register_all
                     (FirestoreByName.registerTeam env) qs (mkWorld [] c0 n0 u0))))).
    { apply (register_all_invariant (FirestoreByName.registerTeam env)
               (fun w => keyed_by_name (store w) /\ unique_names (store w)
                         /\ unique_emails (store w))).
      - intros q w (Hk & Hn & Hm). unfold Scenario.register.
        destruct (registerTeam_byName_cases env (Scenario.reg_teamName q)
                    (Scenario.reg_player1 q) (Scenario.reg_player2 q) (Scenario.reg_email q)
                    (Scenario.reg_phoneNumber q) w)
          as [(e & _ & ->)|(doc & _ & -> & Hid & Hname & Hmail & Hfree & Hmfree)];
          [now repeat split|].
        split; [|split].
        + intros d Hd. apply in_app_or in Hd as [Hd|[<-|[]]]; [now apply Hk|congruence].
        + apply NoDup_map_snoc; [exact Hn|]. intros y Hy Heq.
          apply (lookupDoc_None _ _ Hfree y Hy). rewrite (Hk y Hy). congruence.
        + apply NoDup_map_snoc; [exact Hm|]. intros y Hy Heq.
          pose proof (filter_nil_inv _ _ y Hmfree Hy) as Hf. cbn in Hf.
          apply String.eqb_neq in Hf. congruence.
      - cbn. repeat split; [intros d []|apply NoDup_nil_2|apply NoDup_nil_2]. }
    tauto.
  - apply (register_all_invariant (FirestoreAutoId.registerTeam env)
             (fun w => unique_names (store w) /\ unique_emails (store w))).
    + intros q w (Hn & Hm). unfold Scenario.register.
      destruct (registerTeam_autoId_cases env (Scenario.reg_teamName q)
                  (Scenario.reg_player1 q) (Scenario.reg_player2 q) (Scenario.reg_email q)
                  (Scenario.reg_phoneNumber q) w)
        as [(e & _ & ->)|(doc & _ & -> & Hname & Hmail & Hfree & Hmfree)];
        [now split|].
      split.
      * apply NoDup_map_snoc; [exact Hn|]. intros y Hy Heq.
        pose proof (filter_nil_inv _ _ y Hfree Hy) as Hf. cbn in Hf.
        apply String.eqb_neq in Hf. congruence.
      * apply NoDup_map_snoc; [exact Hm|]. intros y Hy Heq.
        pose proof (filter_nil_inv _ _ y Hmfree Hy) as Hf. cbn in Hf.
        apply String.eqb_neq in Hf. congruence.
    + cbn. split; apply NoDup_nil_2.
Qed.

(** * The Realtime Database library beyond registration *)

Section RealtimeDbMore.
Import RealtimeDb.
Context (env : Env).

Lemma ensureAuth_fails (w : World Root) (e : Js.Thrown) :
  currentUser w = false ->
  outage env (calls w) = Some e ->
  ensureAuth env w
  = (Js.Throw (Js.ErrorObj "Authentication required"),
     mkWorld (store w) (Datatypes.S (calls w)) (draws w) false).
Proof.
  intros Hu Ho. unfold ensureAuth, signInAnonymously, Js.try_catch, Js.throw.
  now rewrite Hu, Ho.
Qed.

Lemma getAllTeams_total (w : World Root) :
  exists l w',
    getAllTeams env w = (Js.Return l, w')
    /\ store w' = store w
    /\ (l = [] \/ l = sort compareTeams (teamNodes (store w))).
Proof.
  unfold getAllTeams, ensureAuth, signInAnonymously, get_root, exists_root, teamNodes,
    Js.try_catch, Js.bind, remote, Js.throw, Js.ret.
  destruct (currentUser w); cbn [store calls draws currentUser fst snd].
  - destruct (outage env (calls w)); cbn [store calls draws currentUser fst snd].
    + do 2 eexists. repeat split. now left.
    + destruct (map_to_list (store w)) eqn:E; cbn [is_empty negb];
        do 2 eexists; (split; [reflexivity|]); (split; [reflexivity|]);
        [now left|now right].
  - destruct (outage env (calls w)); cbn [store calls draws currentUser fst snd].
    + do 2 eexists. repeat split. now left.
    + destruct (outage env (Datatypes.S (calls w)));
        cbn [store calls draws currentUser fst snd].
      * do 2 eexists. repeat split. now left.
      * destruct (map_to_list (store w)) eqn:E; cbn [is_empty negb];
          do 2 eexists; (split; [reflexivity|]); (split; [reflexivity|]);
          [now left|now right].
Qed.

End RealtimeDbMore.

(** X7 -- Realtime Database version, no user signed in and the anonymous
    sign-in fails: [registerTeam], [updateScore] and [updateScoreByTeamName]
    throw [Authentication required] in place of the error of the sign-in,
    [getAllTeams] returns the empty list, and the store is untouched. *)
Theorem rtdb_failed_sign_in (env : Env) (w : World (gmap string Team)) (e : Js.Thrown) :
  currentUser w = false ->
  outage env (calls w) = Some e ->
  (forall teamName' player1' player2' email' phoneNumber',
      exists w',
        RealtimeDb.registerTeam env teamName' player1' player2' email' phoneNumber' w
        = (Js.Throw (Js.ErrorObj "Authentication required"), w')
        /\ store w' = store w)
  /\ (forall uid' n,
         exists w',
           RealtimeDb.updateScore env uid' n w
           = (Js.Throw (Js.ErrorObj "Authentication required"), w')
           /\ store w' = store w)
  /\ (forall teamName' n,
         exists w',
           RealtimeDb.updateScoreByTeamName env teamName' n w
           = (Js.Throw (Js.ErrorObj "Authentication required"), w')
           /\ store w' = store w)
  /\ (exists w',
         RealtimeDb.getAllTeams env w = (Js.Return [], w') /\ store w' = store w).
Proof.
  intros Hu Ho. repeat split.
  - intros n p1 p2 m ph. eexists. split.
    + unfold RealtimeDb.registerTeam, Js.try_catch, Js.bind.
      rewrite (ensureAuth_fails env w e Hu Ho). reflexivity.
    + reflexivity.
  - intros uid' n. eexists. split.
    + unfold RealtimeDb.updateScore, Js.try_catch, Js.bind.
      rewrite (ensureAuth_fails env w e Hu Ho). reflexivity.
    + reflexivity.
  - intros name n. eexists. split.
    + unfold RealtimeDb.updateScoreByTeamName, Js.try_catch, Js.bind.
      rewrite (ensureAuth_fails env w e Hu Ho). reflexivity.
    + reflexivity.
  - eexists. split.
    + unfold RealtimeDb.getAllTeams, Js.try_catch, Js.bind.
      rewrite (ensureAuth_fails env w e Hu Ho). reflexivity.
    + reflexivity.
Qed.

Lemma rtdb_failed_sign_in_witness :
  exists w',
    RealtimeDb.updateScore (Examples.out_at 0) "qK234" 10 Examples.one_node
    = (Js.Throw (Js.ErrorObj "Authentication required"), w')
    /\ store w' = store Examples.one_node.
Proof.
  destruct (rtdb_failed_sign_in (Examples.out_at 0) Examples.one_node
              (Js.ErrorObj "unavailable") eq_refl eq_refl) as (_ & H & _).
  exact (H "qK234"%string 10).
Defined.

(** X8 -- [getAllTeams] of the Realtime Database version never throws and
    never changes the store, whatever the store calls do: it returns the
    sorted team nodes, or the empty list when the sign-in or the read
    fails. *)
Theorem getAllTeams_never_throws (env : Env) (w : World (gmap string Team)) :
  exists teams w',
    RealtimeDb.getAllTeams env w = (Js.Return teams, w')
    /\ store w' = store w
    /\ (teams = []
        \/ teams = RealtimeDb.sort RealtimeDb.compareTeams (RealtimeDb.teamNodes (store w))).
Proof. apply getAllTeams_total. Qed.

(** X9 -- the list [subscribeToScoreboard] passes to its callback for a
    snapshot is the list [getAllTeams] returns for a store with the same
    contents (same filter, same order); so it is a permutation of the team
    nodes sorted by score descending, then team number ascending. *)
Theorem subscribeToScoreboard_pushes_getAllTeams (env : Env) :
  available env ->
  forall w : World (gmap string Team),
    fst (RealtimeDb.getAllTeams env w)
    = Js.Return (RealtimeDb.subscribeToScoreboard (RealtimeDb.Value (store w)))
    /\ Permutation (RealtimeDb.subscribeToScoreboard (RealtimeDb.Value (store w)))
                   (RealtimeDb.teamNodes (store w))
    /\ StronglySorted scoreboard_order
         (RealtimeDb.subscribeToScoreboard (RealtimeDb.Value (store w))).
Proof.
  intros Hav w.
  assert (E : RealtimeDb.subscribeToScoreboard (RealtimeDb.Value (store w))
              = RealtimeDb.sort RealtimeDb.compareTeams (RealtimeDb.teamNodes (store w))).
  { unfold RealtimeDb.subscribeToScoreboard, RealtimeDb.exists_root, RealtimeDb.teamNodes.
    destruct (map_to_list (store w)); reflexivity. }
  rewrite E, (getAllTeams_available env Hav). cbn [fst].
  split; [reflexivity|]. split; [apply sort_perm|apply sort_sorted].
Qed.

Lemma subscribeToScoreboard_pushes_getAllTeams_witness :
  fst (RealtimeDb.getAllTeams Examples.calm Examples.three_nodes)
  = Js.Return (RealtimeDb.subscribeToScoreboard
                 (RealtimeDb.Value (store Examples.three_nodes))).
Proof.
  exact (proj1 (subscribeToScoreboard_pushes_getAllTeams Examples.calm calm_available
                  Examples.three_nodes)).
Defined.

Section ByTeamNameFacts.
Context (env : Env) (Hav : available env).






End ByTeamNameFacts.





(** * The endpoints, end to end *)






(** X14 -- a request that [POST /api/register] or [POST /api/update-score]
    answers with status 400 or 405 has not reached the library: the world is
    exactly as it was, whichever library is linked. *)
Theorem rejected_requests_change_nothing {W R : Type} (env : Env)
        (registerTeam : string -> string -> string -> string -> string -> Js.M W R)
        (team_of : R -> Team) (updateScore : string -> Z -> Js.M W bool) :
  (forall (req : Api.Request Api.RegisterBody) (w : W),
      Api.status (fst (Api.Register.handler env registerTeam team_of req w)) = 400
      \/ Api.status (fst (Api.Register.handler env registerTeam team_of req w)) = 405 ->
      snd (Api.Register.handler env registerTeam team_of req w) = w)
  /\
  (forall (req : Api.Request Api.UpdateScoreBody) (w : W),
      Api.status (fst (Api.UpdateScore.handler env updateScore req w)) = 400
      \/ Api.status (fst (Api.UpdateScore.handler env updateScore req w)) = 405 ->
      snd (Api.UpdateScore.handler env updateScore req w) = w).
Proof.
  split.
  - intros req w. unfold Api.Register.handler, Api.Register.handler_try, Js.ret, Js.throw.
    destruct (negb (String.eqb (Api.method req) "POST")); [reflexivity|].
    destruct (Api.body req) as [b|]; [|cbn; intros [H|H]; discriminate].
    destruct (_ || _ || _ || _ || _); [reflexivity|].
    destruct (Api.body_teamName b); try reflexivity.
    destruct (Api.body_player1 b); try reflexivity.
    destruct (Api.body_player2 b); try reflexivity.
    destruct (Api.body_email b); try reflexivity.
    destruct (Api.body_phoneNumber b); try reflexivity.
    destruct (negb (Js.test Js.emailRegex _)); [reflexivity|].
    destruct (negb (Js.test Js.phoneRegex _)); [reflexivity|].
    unfold Js.bind.
    destruct (registerTeam _ _ _ _ _ w) as [[team|e] w']; cbn; intros [H|H]; discriminate.
  - intros req w. unfold Api.UpdateScore.handler, Api.UpdateScore.handler_try, Js.ret, Js.throw.
    destruct (negb (String.eqb (Api.method req) "POST")); [reflexivity|].
    destruct (Api.body req) as [b|];
      [|cbn; destruct (Js.includes _ _); cbn; intros [H|H]; discriminate].
    destruct (negb (Js.truthy (Api.body_uid b))); [reflexivity|].
    destruct (Api.body_scoreIncrement b) as [| | |n| |]; try reflexivity;
      destruct (Api.body_uid b); try reflexivity.
    destruct (Js.isNaN n); [reflexivity|].
    destruct (Js.num_lt n (-1000000) || Js.num_gt n 1000000); [reflexivity|].
    destruct n as [z| | |]; unfold Js.bind.
    + destruct (updateScore _ z w) as [[b0|e] w']; cbn.
      * intros [H|H]; discriminate.
      * destruct (Js.instanceof_Error e && _); cbn; intros [H|H]; discriminate.
    + cbn. intros [H|H]; discriminate.
    + cbn. intros [H|H]; discriminate.
    + cbn. intros [H|H]; discriminate.
Qed.

(** A [PUT] on the register endpoint: 405, and the collection is as it
    was. *)
Lemma rejected_requests_change_nothing_witness :
  snd (Api.Register.handler Examples.calm (FirestoreByName.registerTeam Examples.calm)
         Firestore.docData
         (Api.mkRequest "PUT" (Api.body (Examples.post_register "Beta" "beta@example.com")))
         Examples.one_team)
  = Examples.one_team.
Proof.
  apply (proj1 (rejected_requests_change_nothing Examples.calm
                  (FirestoreByName.registerTeam Examples.calm) Firestore.docData
                  (Firestore.updateScore Examples.calm))).
  right. reflexivity.
Defined.



(** X16 -- [GET /api/scoreboard] over the Realtime Database library answers
    200 whatever the store calls do, never 500: [totalTeams] is the length of
    [teams], which is the sorted list of team nodes, or the empty list when
    the store could not be read.  Any other method is answered 405.  The
    store is never changed. *)
Theorem scoreboard_always_answers {B : Type} (env : Env)
        (toISOString_now : World (gmap string Team) -> string)
        (req : Api.Request B) (w : World (gmap string Team)) :
  let r := Api.Scoreboard.handler (RealtimeDb.getAllTeams env) toISOString_now req w in
  store (snd r) = store w
  /\ (Api.method req = "GET"%string ->
      exists data,
        fst r = Api.mkResponse 200 (Api.SuccessResponse data)
        /\ Api.Scoreboard.totalTeams data = Z.of_nat (length (Api.Scoreboard.teams data))
        /\ (Api.Scoreboard.teams data = []
            \/ Api.Scoreboard.teams data
               = RealtimeDb.sort RealtimeDb.compareTeams (RealtimeDb.teamNodes (store w))))
  /\ (Api.method req <> "GET"%string ->
      fst r = Api.mkResponse 405 (Api.ErrorResponse "Method not allowed. Use GET.")).
Proof.
  cbv zeta. unfold Api.Scoreboard.handler.
  destruct (getAllTeams_total env w) as (l & w' & Hrun & Hs & Hl).
  destruct (String.eqb (Api.method req) "GET") eqn:E; cbn [negb].
  - apply String.eqb_eq in E. rewrite Hrun. cbn [fst snd].
    split; [exact Hs|]. split; [|congruence].
    intros _. eexists. split; [reflexivity|]. cbn. split; [reflexivity|exact Hl].
  - apply String.eqb_neq in E. cbn [fst snd].
    split; [reflexivity|]. split; [congruence|reflexivity].
Qed.

(** The read of the root fails: 200 with an empty board. *)
Lemma scoreboard_always_answers_witness :
  exists data,
    fst (Api.Scoreboard.handler (RealtimeDb.getAllTeams (Examples.out_at 1))
           (fun _ => "2023-11-14T22:13:20.000Z"%string)
           (Api.mkRequest "GET" (@None unit)) Examples.three_nodes)
    = Api.mkResponse 200 (Api.SuccessResponse data)
    /\ Api.Scoreboard.totalTeams data = Z.of_nat (length (Api.Scoreboard.teams data)).
Proof.
  destruct (scoreboard_always_answers (Examples.out_at 1)
              (fun _ => "2023-11-14T22:13:20.000Z"%string)
              (Api.mkRequest "GET" (@None unit)) Examples.three_nodes)
    as (_ & H & _).
  destruct (H eq_refl) as (data & Hrun & Htotal & _).
  exists data. split; assumption.
Defined.

(** * The team endpoint *)

Section TeamEndpointFacts.
Context (env : Env) (invalidPath : Js.Thrown).

Lemma remote_read_only {S A} (f : S -> A) (w : World S) :
  store (snd (remote env (fun s => (Js.Return (f s), s)) w)) = store w.
Proof. unfold remote. destruct (outage env (calls w)); reflexivity. Qed.

Lemma rtdb_by_uid_reads (v : Js.JsValue) (w : World (gmap string Team)) :
  store (snd (Api.Team.rtdb_by_uid env invalidPath v w)) = store w.
Proof.
  unfold Api.Team.rtdb_by_uid, RealtimeDb.get_node, Js.throw.
  destruct v; try reflexivity. apply remote_read_only.
Qed.

Lemma rtdb_by_teamName_reads (v : Js.JsValue) (w : World (gmap string Team)) :
  store (snd (Api.Team.rtdb_by_teamName env v w)) = store w.
Proof.
  unfold Api.Team.rtdb_by_teamName, RealtimeDb.get_root, Js.bind, remote, Js.ret.
  destruct (outage env (calls w)); cbn [fst snd store]; [reflexivity|].
  destruct (RealtimeDb.exists_root (store w)); reflexivity.
Qed.

Lemma firestore_by_uid_reads (v : Js.JsValue) (w : World (list Firestore.Doc)) :
  store (snd (Api.Team.firestore_by_uid env invalidPath v w)) = store w.
Proof.
  unfold Api.Team.firestore_by_uid, Firestore.getDoc, Js.throw.
  destruct v; try reflexivity. apply remote_read_only.
Qed.

Lemma firestore_by_teamName_reads (v : Js.JsValue) (w : World (list Firestore.Doc)) :
  store (snd (Api.Team.firestore_by_teamName env v w)) = store w.
Proof.
  unfold Api.Team.firestore_by_teamName, Firestore.getDocs, Js.bind, remote, Js.ret.
  destruct (outage env (calls w)); reflexivity.
Qed.

(** The handler changes the store no more than its two lookups do. *)
Lemma team_handler_reads {S D} (by_uid by_teamName : Js.JsValue -> Js.M (World S) (option D))
      (req : Api.Team.TeamRequest) (w : World S) :
  (forall v w0, store (snd (by_uid v w0)) = store w0) ->
  (forall v w0, store (snd (by_teamName v w0)) = store w0) ->
  store (snd (Api.Team.handler env by_uid by_teamName req w)) = store w.
Proof.
  intros Hu Hn.
  assert (Hres : forall lookup : Js.M (World S) (option D),
             store (snd (lookup w)) = store w ->
             store (snd (Api.Team.respond lookup w)) = store w).
  { intros lookup Hl. unfold Api.Team.respond.
    destruct (lookup w) as [[[team|]|e] w']; exact Hl. }
  unfold Api.Team.handler, Js.ret, Js.throw.
  destruct (String.eqb (Api.Team.team_method req) "GET").
  - destruct (_ && _); [reflexivity|].
    match goal with
    | |- context [Api.Team.respond ?l w] =>
        specialize (Hres l); destruct (Api.Team.respond l w) as [res w'] eqn:E
    end.
    cbn [snd] in *. apply Hres.
    destruct (Api.Team.query_string (Api.Team.query_uid req)); [apply Hu|].
    destruct (Api.Team.query_string (Api.Team.query_teamName req)); [apply Hn|reflexivity].
  - destruct (String.eqb (Api.Team.team_method req) "POST"); [|reflexivity].
    destruct (Api.Team.team_body req) as [b|]; [|reflexivity].
    destruct (_ && _); [reflexivity|].
    match goal with
    | |- context [Api.Team.respond ?l w] =>
        specialize (Hres l); destruct (Api.Team.respond l w) as [res w'] eqn:E
    end.
    cbn [snd] in *. apply Hres.
    destruct (Js.truthy (Api.Team.lookup_uid b)); [apply Hu|].
    destruct (Js.truthy (Api.Team.lookup_teamName b)); [apply Hn|reflexivity].
Qed.

End TeamEndpointFacts.

(** X17 -- [/api/team], in its Realtime Database and its Firestore version,
    never changes the store: for every request, method and body, and
    whatever the store calls do. *)
Theorem team_endpoint_never_writes (env : Env) (invalidPath : Js.Thrown)
        (req : Api.Team.TeamRequest) :
  (forall w : World (gmap string Team),
      store (snd (Api.Team.handler env (Api.Team.rtdb_by_uid env invalidPath)
                    (Api.Team.rtdb_by_teamName env) req w)) = store w)
  /\
  (forall w : World (list Firestore.Doc),
      store (snd (Api.Team.handler env (Api.Team.firestore_by_uid env invalidPath)
                    (Api.Team.firestore_by_teamName env) req w)) = store w).
Proof.
  split; intros w; apply team_handler_reads.
  - apply rtdb_by_uid_reads.
  - apply rtdb_by_teamName_reads.
  - apply firestore_by_uid_reads.
  - apply firestore_by_teamName_reads.
Qed.



(** * The validation patterns *)

Section RegexFacts.
Import Js.

Lemma void_not_nullable (r : Regex) : void r = true -> nullable r = false.
Proof.
  induction r as [| |p|r1 IH1 r2 IH2|r1 IH1 r2 IH2|r1 IH1]; cbn; try discriminate;
    try reflexivity.
  - intros H. apply orb_prop in H as [H|H]; [rewrite (IH1 H)|rewrite (IH2 H)];
      [reflexivity|apply andb_false_r].
  - intros H. apply andb_prop in H as [H1 H2]. now rewrite (IH1 H1), (IH2 H2).
Qed.

Lemma void_deriv (c : ascii) (r : Regex) : void r = true -> void (deriv c r) = true.
Proof.
  induction r as [| |p|r1 IH1 r2 IH2|r1 IH1 r2 IH2|r1 IH1]; cbn; try discriminate;
    try reflexivity.
  - intros H. apply orb_prop in H as [H|H].
    + rewrite (void_not_nullable _ H). cbn. now rewrite (IH1 H).
    + destruct (nullable r1); cbn; rewrite ?(IH2 H), ?H, ?orb_true_r; reflexivity.
  - intros H. apply andb_prop in H as [H1 H2]. now rewrite (IH1 H1), (IH2 H2).
Qed.

Lemma void_test (r : Regex) (s : string) : void r = true -> test r s = false.
Proof.
  revert r. induction s as [|c s IH]; intros r H; cbn.
  - now apply void_not_nullable.
  - apply IH. now apply void_deriv.
Qed.

Lemma deriv_outside (P : ascii -> bool) (c : ascii) (r : Regex) :
  classes_within P r -> P c = false -> void (deriv c r) = true.
Proof.
  intros Hr Hc.
  induction r as [| |p|r1 IH1 r2 IH2|r1 IH1 r2 IH2|r1 IH1]; cbn in *; try reflexivity.
  - destruct (p c) eqn:E; [|reflexivity]. rewrite (Hr c E) in Hc. discriminate.
  - destruct Hr as [H1 H2]. destruct (nullable r1); cbn;
      rewrite (IH1 H1), ?(IH2 H2); reflexivity.
  - destruct Hr as [H1 H2]. now rewrite (IH1 H1), (IH2 H2).
  - now rewrite (IH1 Hr).
Qed.

Lemma classes_within_deriv (P : ascii -> bool) (c : ascii) (r : Regex) :
  classes_within P r -> classes_within P (deriv c r).
Proof.
  induction r as [| |p|r1 IH1 r2 IH2|r1 IH1 r2 IH2|r1 IH1]; cbn; intros Hr; try exact I.
  - destruct (p c); exact I.
  - destruct Hr as [H1 H2]. destruct (nullable r1); cbn; auto.
  - destruct Hr as [H1 H2]. auto.
  - auto.
Qed.

(** A string the pattern accepts is made of characters of its classes. *)
Lemma test_all_chars (P : ascii -> bool) (r : Regex) (s : string) :
  classes_within P r -> test r s = true -> all_chars P s = true.
Proof.
  revert r. induction s as [|c s IH]; intros r Hr Ht; cbn in *; [reflexivity|].
  destruct (P c) eqn:E.
  - cbn. apply (IH (deriv c r)); [now apply classes_within_deriv|exact Ht].
  - rewrite (void_test _ s (deriv_outside P c r Hr E)) in Ht. discriminate.
Qed.

Lemma classes_within_Exactly (P : ascii -> bool) (n : nat) (r : Regex) :
  classes_within P r -> classes_within P (Exactly n r).
Proof. intros H. induction n; cbn; auto. Qed.

Lemma classes_within_AtMost (P : ascii -> bool) (n : nat) (r : Regex) :
  classes_within P r -> classes_within P (AtMost n r).
Proof. intros H. induction n; cbn; auto. Qed.

Lemma emailRegex_classes : classes_within not_space emailRegex.
Proof.
  assert (Hother : forall c, negb (isWhiteSpace c || Ascii.eqb c "@") = true
                             -> not_space c = true).
  { intros c H. unfold not_space. destruct (isWhiteSpace c); [discriminate|reflexivity]. }
  assert (Hlit : forall a c, isWhiteSpace a = false -> Ascii.eqb a c = true
                             -> not_space c = true).
  { intros a c Ha H. apply Ascii.eqb_eq in H. subst c. unfold not_space. now rewrite Ha. }
  unfold emailRegex, Plus, Lit. cbn [classes_within].
  repeat split; try exact Hother; intros c; apply Hlit; reflexivity.
Qed.

Lemma phoneRegex_classes : classes_within phone_symbol phoneRegex.
Proof.
  unfold phoneRegex, Between, Opt, Lit. cbn [classes_within].
  assert (Hsym : forall c, isDigit c || isWhiteSpace c || Ascii.eqb c "-" || Ascii.eqb c "("
                           || Ascii.eqb c ")" = true -> phone_symbol c = true).
  { intros c H. unfold phone_symbol. now rewrite H. }
  split; [split; [exact I|]|split].
  - intros c H. apply Ascii.eqb_eq in H. subst c. reflexivity.
  - apply classes_within_Exactly. exact Hsym.
  - apply classes_within_AtMost. exact Hsym.
Qed.

Lemma trimStart_no_space (s : string) : all_chars not_space s = true -> trimStart s = s.
Proof.
  destruct s as [|c s]; [reflexivity|]. cbn. unfold not_space at 1.
  destruct (isWhiteSpace c); [discriminate|reflexivity].
Qed.

Lemma trimEnd_no_space (s : string) : all_chars not_space s = true -> trimEnd s = s.
Proof.
  induction s as [|c s IH]; [reflexivity|]. cbn. intros H.
  apply andb_prop in H as [Hc Hs]. rewrite (IH Hs).
  unfold not_space in Hc. destruct s; [|reflexivity].
  destruct (isWhiteSpace c); [discriminate|reflexivity].
Qed.

Lemma trim_no_space (s : string) : all_chars not_space s = true -> trim s = s.
Proof.
  intros H. unfold trim. rewrite (trimStart_no_space s H). now apply trimEnd_no_space.
Qed.

Lemma trim_empty_inv (s : string) : trim s <> ""%string -> s <> ""%string.
Proof. intros H ->. now apply H. Qed.

End RegexFacts.

(** X19 -- what the two validation patterns let through: a string accepted
    as an e-mail has no white space anywhere (trimming it changes nothing);
    a string accepted as a phone number is made of digits, white space,
    dashes, parentheses and plus signs only. *)
Theorem validation_patterns_character_sets (s : string) :
  (Js.test Js.emailRegex s = true ->
   all_chars not_space s = true /\ Js.trim s = s)
  /\ (Js.test Js.phoneRegex s = true -> all_chars phone_symbol s = true).
Proof.
  split.
  - intros H. pose proof (test_all_chars _ _ _ emailRegex_classes H) as Hall.
    split; [exact Hall|now apply trim_no_space].
  - intros H. exact (test_all_chars _ _ _ phoneRegex_classes H).
Qed.

Lemma validation_patterns_character_sets_witness :
  all_chars not_space "team@example.com" = true
  /\ Js.trim "team@example.com" = "team@example.com"%string.
Proof.
  apply (proj1 (validation_patterns_character_sets "team@example.com")).
  vm_compute. reflexivity.
Defined.

(** X20 -- what the form of the home page lets through, the register
    endpoint lets through as well, and with the same arguments: when the five
    fields are not blank, the e-mail as typed and the trimmed phone number
    match the patterns and the trimmed name has 2 to 30 characters,
    [handleSubmit] calls [registerTeam] on the trimmed fields, and so does
    [POST /api/register] for a body with the same fields. *)
Theorem form_accepted_is_api_accepted {W R : Type} (env : Env)
        (registerTeam : string -> string -> string -> string -> string -> Js.M W R)
        (team_of : R -> Team) (f : Api.FormData) (w : W) :
  Js.trim (Api.form_teamName f) <> ""%string ->
  Js.trim (Api.form_player1 f) <> ""%string ->
  Js.trim (Api.form_player2 f) <> ""%string ->
  Js.trim (Api.form_email f) <> ""%string ->
  Js.trim (Api.form_phoneNumber f) <> ""%string ->
  Js.test Js.emailRegex (Api.form_email f) = true ->
  Js.test Js.phoneRegex (Js.trim (Api.form_phoneNumber f)) = true ->
  (2 <= String.length (Js.trim (Api.form_teamName f)) <= 30)%nat ->
  Api.Home.handleSubmit_try registerTeam f w
  = registerTeam (Js.trim (Api.form_teamName f)) (Js.trim (Api.form_player1 f))
                 (Js.trim (Api.form_player2 f)) (Js.trim (Api.form_email f))
                 (Js.trim (Api.form_phoneNumber f)) w
  /\
  Api.Register.handler_try env registerTeam team_of
    (Api.mkRequest "POST" (Some (body_of_form f))) w
  = Js.bind (registerTeam (Js.trim (Api.form_teamName f)) (Js.trim (Api.form_player1 f))
                          (Js.trim (Api.form_player2 f)) (Js.trim (Api.form_email f))
                          (Js.trim (Api.form_phoneNumber f)))
      (fun team =>
         let t := team_of team in
         Js.ret (Api.mkResponse 201 (Api.SuccessResponse
           (Api.mkRegisterData (teamNumber t) (teamName t) (uid t) (player1 t) (player2 t)
                               (email t) (phoneNumber t) (score t))))) w.
Proof.
  intros H1 H2 H3 H4 H5 He Hp Hlen. split.
  - unfold Api.Home.handleSubmit_try.
    apply String.eqb_neq in H1, H2, H3, H4, H5. rewrite H1, H2, H3, H4, H5, He, Hp.
    cbn [orb negb].
    assert (E1 : (String.length (Js.trim (Api.form_teamName f)) <? 2)%nat = false)
      by (apply Nat.ltb_ge; lia).
    assert (E2 : (30 <? String.length (Js.trim (Api.form_teamName f)))%nat = false)
      by (apply Nat.ltb_ge; lia).
    rewrite E1, E2. reflexivity.
  - unfold body_of_form. apply register_try_valid; try (now apply trim_empty_inv).
    + rewrite (trim_no_space _ (test_all_chars _ _ _ emailRegex_classes He)).
      exact He.
    + exact Hp.
Qed.

Lemma form_accepted_is_api_accepted_witness :
  exists run,
    Api.Home.handleSubmit_try (FirestoreByName.registerTeam Examples.calm)
      (Api.mkFormData "  Beta " "Ben" "Bo" "beta@example.com" " +1234567891")
      Examples.one_team = run
    /\ Api.Register.handler_try Examples.calm (FirestoreByName.registerTeam Examples.calm)
         Firestore.docData
         (Api.mkRequest "POST"
            (Some (body_of_form
                     (Api.mkFormData "  Beta " "Ben" "Bo" "beta@example.com" " +1234567891"))))
         Examples.one_team
       = Js.bind (FirestoreByName.registerTeam Examples.calm "Beta" "Ben" "Bo"
                    "beta@example.com" "+1234567891")
           (fun team =>
              let t := Firestore.docData team in
              Js.ret (Api.mkResponse 201 (Api.SuccessResponse
                (Api.mkRegisterData (teamNumber t) (teamName t) (uid t) (player1 t)
                                    (player2 t) (email t) (phoneNumber t) (score t)))))
           Examples.one_team.
Proof.
  eexists. split; [reflexivity|].
  apply (proj2 (form_accepted_is_api_accepted Examples.calm
                  (FirestoreByName.registerTeam Examples.calm) Firestore.docData
                  (Api.mkFormData "  Beta " "Ben" "Bo" "beta@example.com" " +1234567891")
                  Examples.one_team
                  ltac:(vm_compute; discriminate) ltac:(vm_compute; discriminate)
                  ltac:(vm_compute; discriminate) ltac:(vm_compute; discriminate)
                  ltac:(vm_compute; discriminate) ltac:(vm_compute; reflexivity)
                  ltac:(vm_compute; reflexivity) ltac:(vm_compute; lia))).
Defined.

(** * One-time passwords *)

Section OtpFacts.
Import Otp.

Lemma pretty_N_char_digit (d : N) : Js.isDigit (pretty_N_char d) = true.
Proof.
  destruct d as [|p]; [reflexivity|].
  destruct p as [p|p|]; try reflexivity;
    destruct p as [p|p|]; try reflexivity;
    destruct p as [p|p|]; try reflexivity;
    destruct p as [p|p|]; reflexivity.
Qed.

Lemma pretty_six_digits (n : Z) :
  100000 <= n <= 999999 ->
  String.length (pretty n) = 6%nat /\ all_chars Js.isDigit (pretty n) = true.
Proof.
  intros Hn. destruct n as [|p|p]; try lia.
  unfold pretty, pretty_Z, pretty, pretty_positive, pretty, pretty_N.
  destruct (decide (N.pos p = 0%N)) as [E|_]; [discriminate|].
  set (x := N.pos p).
  assert (Hx : (100000 <= x <= 999999)%N) by (unfold x; lia).
  clearbody x.
  assert (H1 : (10000 <= x / 10 <= 99999)%N)
    by (zify; Z.to_euclidean_division_equations; lia).
  assert (H2 : (1000 <= x / 10 / 10 <= 9999)%N)
    by (zify; Z.to_euclidean_division_equations; lia).
  assert (H3 : (100 <= x / 10 / 10 / 10 <= 999)%N)
    by (zify; Z.to_euclidean_division_equations; lia).
  assert (H4 : (10 <= x / 10 / 10 / 10 / 10 <= 99)%N)
    by (zify; Z.to_euclidean_division_equations; lia).
  assert (H5 : (1 <= x / 10 / 10 / 10 / 10 / 10 <= 9)%N)
    by (zify; Z.to_euclidean_division_equations; lia).
  assert (H6 : (x / 10 / 10 / 10 / 10 / 10 / 10 = 0)%N)
    by (zify; Z.to_euclidean_division_equations; lia).
  rewrite (pretty_N_go_step x) by lia.
  rewrite (pretty_N_go_step (x / 10)) by lia.
  rewrite (pretty_N_go_step (x / 10 / 10)) by lia.
  rewrite (pretty_N_go_step (x / 10 / 10 / 10)) by lia.
  rewrite (pretty_N_go_step (x / 10 / 10 / 10 / 10)) by lia.
  rewrite (pretty_N_go_step (x / 10 / 10 / 10 / 10 / 10)) by lia.
  rewrite H6, pretty_N_go_0.
  split; [reflexivity|].
  cbn [all_chars]. rewrite !pretty_N_char_digit. reflexivity.
Qed.

Lemma otp_number_range (r : Js.Unit01) :
  100000 <= Qfloor (100000 + Js.u01 r * 900000) <= 999999.
Proof.
  destruct r as [[a b] Hr]. cbn [Js.u01].
  apply andb_prop in Hr as [Hlo Hhi].
  apply Qle_bool_iff in Hlo. unfold Qle in Hlo. cbn in Hlo.
  assert (Hlt : a < Z.pos b).
  { destruct (Qle_bool 1 (a # b)) eqn:E; [discriminate|].
    destruct (Z_lt_dec a (Z.pos b)) as [|Hge]; [assumption|].
    exfalso. assert (Qle_bool 1 (a # b) = true); [|congruence].
    apply Qle_bool_iff. unfold Qle. cbn. lia. }
  unfold Qfloor, Qplus, Qmult, inject_Z. cbn [Qnum Qden].
  rewrite !Pos.mul_1_r, Pos.mul_1_l. split.
  - apply Z.div_le_lower_bound; nia.
  - assert ((100000 * Z.pos b + a * 900000 * 1) / Z.pos b < 1000000); [|lia].
    apply Z.div_lt_upper_bound; nia.
Qed.

Lemma lookup_fold_delete (l : list Timer) (m : gmap string Entry) (k : string) :
  List.fold_left (fun m t => delete (timer_key t) m) l m !! k
  = if existsb (fun t => String.eqb (timer_key t) k) l then None else m !! k.
Proof.
  revert m. induction l as [|t l IH]; intros m; cbn; [reflexivity|].
  rewrite IH. destruct (String.eqb (timer_key t) k) eqn:E; cbn.
  - apply String.eqb_eq in E. subst k. rewrite lookup_delete_eq.
    now destruct (existsb _ l).
  - apply String.eqb_neq in E. rewrite lookup_delete_ne by exact E. reflexivity.
Qed.

Lemma storeOTP_lookup (now : Z) (email' otp' typed : string) (minutes : option Z)
      (st : State) :
  toLowerCase typed = toLowerCase email' ->
  otpStore (storeOTP now email' otp' minutes st) !! toLowerCase typed
  = Some (mkEntry otp' (now + default 10 minutes * 60 * 1000) email').
Proof.
  intros ->. unfold storeOTP. cbn [otpStore]. rewrite lookup_insert_eq.
  now destruct minutes.
Qed.

Lemma verifyOTP_absent (t : Z) (typed code : string) (st : State) :
  otpStore st !! toLowerCase typed = None -> verifyOTP t typed code st = (false, st).
Proof. intros H. unfold verifyOTP. now rewrite H. Qed.

Lemma covered_storeOTP (now : Z) (email' otp' : string) (minutes : option Z) (st : State) :
  covered st -> covered (storeOTP now email' otp' minutes st).
Proof.
  intros Hc k Hk. unfold storeOTP in *. cbn [otpStore timers] in *.
  destruct (decide (toLowerCase email' = k)) as [<-|Hne].
  - eexists. split; [apply in_or_app; right; left; reflexivity|reflexivity].
  - rewrite lookup_insert_ne in Hk by exact Hne.
    destruct (Hc k Hk) as (t & Hin & Hkey).
    exists t. split; [apply in_or_app; now left|exact Hkey].
Qed.

Lemma covered_delete (k : string) (st : State) :
  covered st -> covered (mkState (delete k (otpStore st)) (timers st)).
Proof.
  intros Hc j Hj. cbn [otpStore timers] in *.
  destruct (decide (k = j)) as [<-|Hne].
  - rewrite lookup_delete_eq in Hj. now destruct Hj.
  - rewrite lookup_delete_ne in Hj by exact Hne. exact (Hc j Hj).
Qed.

Lemma covered_verifyOTP (t : Z) (typed code : string) (st : State) :
  covered st -> covered (snd (verifyOTP t typed code st)).
Proof.
  intros Hc. unfold verifyOTP.
  destruct (otpStore st !! toLowerCase typed) as [e|]; [|exact Hc].
  destruct (expires e <? t); [now apply covered_delete|].
  destruct (negb (String.eqb (otp e) code)); [exact Hc|now apply covered_delete].
Qed.

Lemma covered_run_timers (t : Z) (st : State) : covered st -> covered (run_timers t st).
Proof.
  intros Hc k Hk. unfold run_timers in *. cbn [otpStore timers] in *.
  rewrite lookup_fold_delete in Hk.
  destruct (existsb _ _) eqn:E; [now destruct Hk|].
  destruct (Hc k Hk) as (tm & Hin & Hkey).
  exists tm. split; [|exact Hkey].
  apply filter_In. split; [exact Hin|].
  destruct (due tm <=? t) eqn:Ed; [|reflexivity].
  exfalso. assert (Hex : existsb (fun t0 => String.eqb (timer_key t0) k)
                                 (List.filter (fun t0 => due t0 <=? t) (timers st)) = true).
  { apply existsb_exists. exists tm. split; [apply filter_In; now split|].
    now apply String.eqb_eq. }
  congruence.
Qed.

Lemma covered_run (ops : list Op) (st : State) : covered st -> covered (run ops st).
Proof.
  revert st. induction ops as [|op ops IH]; intros st Hc; [exact Hc|].
  cbn. apply IH. destruct op; cbn.
  - now apply covered_storeOTP.
  - now apply covered_verifyOTP.
  - now apply covered_run_timers.
Qed.

Lemma covered_initial : covered initial.
Proof. intros k Hk. cbn in Hk. rewrite lookup_empty in Hk. now destruct Hk. Qed.

End OtpFacts.

(** X21 -- [generateOTP] returns the decimal writing of a whole number
    between 100000 and 999999: six characters, all of them digits; it takes
    one draw of [Math.random()] and nothing else. *)
Theorem generateOTP_six_digits {S : Type} (env : Env) (w : World S) :
  exists n,
    Otp.generateOTP env w
    = (Js.Return (pretty n), mkWorld (store w) (calls w) (Datatypes.S (draws w)) (currentUser w))
    /\ 100000 <= n <= 999999
    /\ String.length (pretty n) = 6%nat
    /\ all_chars Js.isDigit (pretty n) = true.
Proof.
  exists (Qfloor (100000 + Js.u01 (random env (draws w)) * 900000)).
  pose proof (otp_number_range (random env (draws w))) as Hr.
  split; [reflexivity|]. split; [exact Hr|]. now apply pretty_six_digits.
Qed.





(** X24 -- after the expiry time the stored code is refused, the right one
    included: [verifyOTP] returns false and removes the entry, so a later
    call fails as well, at whatever time. *)
Theorem expired_otp_is_refused (now t : Z) (email' typed code : string)
        (expirationMinutes : option Z) (st : Otp.State) :
  Otp.toLowerCase typed = Otp.toLowerCase email' ->
  now + default 10 expirationMinutes * 60 * 1000 < t ->
  exists st',
    Otp.verifyOTP t typed code (Otp.storeOTP now email' code expirationMinutes st)
    = (false, st')
    /\ Otp.otpStore st' = delete (Otp.toLowerCase email') (Otp.otpStore st)
    /\ forall t' code', Otp.verifyOTP t' typed code' st' = (false, st').
Proof.
  intros He Ht. eexists. split; [|split].
  - unfold Otp.verifyOTP. rewrite (storeOTP_lookup _ _ _ _ _ _ He).
    cbn [Otp.expires Otp.otp].
    destruct (_ <? t) eqn:E; [|apply Z.ltb_ge in E; lia].
    rewrite He. reflexivity.
  - cbn [Otp.otpStore Otp.storeOTP]. apply delete_insert_eq.
  - intros t' code'. apply verifyOTP_absent. cbn [Otp.otpStore]. rewrite He.
    apply lookup_delete_eq.
Qed.

Lemma expired_otp_is_refused_witness :
  exists st',
    Otp.verifyOTP 600001 "ann@example.com" "123456"
      (Otp.storeOTP 0 "ann@example.com" "123456" None Otp.initial) = (false, st')
    /\ Otp.otpStore st' = delete (Otp.toLowerCase "ann@example.com") (Otp.otpStore Otp.initial)
    /\ forall t' code', Otp.verifyOTP t' "ann@example.com" code' st' = (false, st').
Proof.
  apply (expired_otp_is_refused 0 600001 "ann@example.com" "ann@example.com" "123456"
           None Otp.initial); [reflexivity|cbn; lia].
Defined.



(** X26 -- the clean-up timer of an earlier [storeOTP] removes a later code
    stored for the same e-mail: with the default 10 minutes, once the first
    timer has run, the second code is refused although its own expiry time
    has not come; with that timer still pending it is accepted. *)
Theorem earlier_timer_removes_later_otp (t0 t1 t : Z) (email0 email1 code0 code1 : string)
        (st : Otp.State) :
  Otp.toLowerCase email1 = Otp.toLowerCase email0 ->
  t0 + 600000 <= t ->
  t <= t1 + 600000 ->
  let stored := Otp.storeOTP t1 email1 code1 None
                  (Otp.storeOTP t0 email0 code0 None st) in
  fst (Otp.verifyOTP t email1 code1 stored) = true
  /\ Otp.verifyOTP t email1 code1 (Otp.run_timers t stored)
     = (false, Otp.run_timers t stored).
Proof.
  intros He Hlo Hhi stored. split.
  - unfold Otp.verifyOTP, stored.
    rewrite (storeOTP_lookup _ _ _ _ _ _ eq_refl). cbn [Otp.expires Otp.otp default].
    destruct (_ <? t) eqn:E; [apply Z.ltb_lt in E; lia|].
    now rewrite String.eqb_refl.
  - apply verifyOTP_absent. unfold Otp.run_timers. cbn [Otp.otpStore].
    rewrite lookup_fold_delete.
    assert (Hex : existsb (fun tm => String.eqb (Otp.timer_key tm) (Otp.toLowerCase email1))
                    (List.filter (fun tm => Otp.due tm <=? t) (Otp.timers stored)) = true).
    { apply existsb_exists.
      exists (Otp.mkTimer (t0 + 600000) (Otp.toLowerCase email0)). split.
      - apply filter_In. split.
        + unfold stored, Otp.storeOTP. cbn [Otp.timers].
          apply in_or_app. left. apply in_or_app. right. left. reflexivity.
        + cbn [Otp.due]. apply Z.leb_le. exact Hlo.
      - cbn [Otp.timer_key]. rewrite He. apply String.eqb_refl. }
    now rewrite Hex.
Qed.

Lemma earlier_timer_removes_later_otp_witness :
  let stored := Otp.storeOTP 300000 "ann@example.com" "654321" None
                  (Otp.storeOTP 0 "ann@example.com" "123456" None Otp.initial) in
  fst (Otp.verifyOTP 600000 "ann@example.com" "654321" stored) = true
  /\ Otp.verifyOTP 600000 "ann@example.com" "654321" (Otp.run_timers 600000 stored)
     = (false, Otp.run_timers 600000 stored).
Proof.
  apply (earlier_timer_removes_later_otp 0 300000 600000 "ann@example.com" "ann@example.com"
           "123456" "654321" Otp.initial); [reflexivity|lia|lia].
Defined.

(** X27 -- no entry outlives its timers: after any sequence of [storeOTP]
    and [verifyOTP] calls and turns of the event loop, starting from the empty
    module, every stored entry has a clean-up timer pending for its key, and
    once all pending timers have run the store is empty. *)
Theorem otp_store_is_emptied (ops : list Otp.Op) (t : Z) :
  Forall (fun tm => Otp.due tm <= t) (Otp.timers (Otp.run ops Otp.initial)) ->
  Otp.covered (Otp.run ops Otp.initial)
  /\ Otp.otpStore (Otp.run_timers t (Otp.run ops Otp.initial)) = ∅
  /\ Otp.timers (Otp.run_timers t (Otp.run ops Otp.initial)) = [].
Proof.
  intros Hdue.
  pose proof (covered_run ops Otp.initial covered_initial) as Hc.
  set (st := Otp.run ops Otp.initial) in *.
  assert (Hall : forall tm, In tm (Otp.timers st) -> (Otp.due tm <=? t) = true).
  { intros tm Hin. apply Z.leb_le. rewrite Forall_forall in Hdue. apply Hdue.
    now apply list_elem_of_In. }
  split; [exact Hc|]. split.
  - apply map_eq. intros k. rewrite lookup_empty. unfold Otp.run_timers. cbn [Otp.otpStore].
    rewrite lookup_fold_delete.
    destruct (existsb _ _) eqn:E; [reflexivity|].
    destruct (Otp.otpStore st !! k) as [e|] eqn:Ek; [|reflexivity].
    exfalso. destruct (Hc k (mk_is_Some _ _ Ek)) as (tm & Hin & Hkey).
    assert (Hex : existsb (fun t0 => String.eqb (Otp.timer_key t0) k)
                    (List.filter (fun t0 => Otp.due t0 <=? t) (Otp.timers st)) = true).
    { apply existsb_exists. exists tm. split; [apply filter_In; split; auto|].
      now apply String.eqb_eq. }
    congruence.
  - unfold Otp.run_timers. cbn [Otp.timers].
    revert Hall. generalize (Otp.timers st). intros l.
    induction l as [|tm l IH]; intros Hall; [reflexivity|].
    cbn [List.filter]. rewrite (Hall tm (or_introl eq_refl)). cbn [negb].
    apply IH. intros tm' Hin. apply Hall. now right.
Qed.

Lemma otp_store_is_emptied_witness :
  Otp.covered (Otp.run [Otp.Store 0 "Ann@example.com" "123456" None;
                        Otp.Verify 5 "ben@example.com" "1";
                        Otp.Store 7 "ben@example.com" "222222" (Some 1)] Otp.initial)
  /\ Otp.otpStore (Otp.run_timers 600000
                     (Otp.run [Otp.Store 0 "Ann@example.com" "123456" None;
                               Otp.Verify 5 "ben@example.com" "1";
                               Otp.Store 7 "ben@example.com" "222222" (Some 1)] Otp.initial))
     = ∅
  /\ Otp.timers (Otp.run_timers 600000
                   (Otp.run [Otp.Store 0 "Ann@example.com" "123456" None;
                             Otp.Verify 5 "ben@example.com" "1";
                             Otp.Store 7 "ben@example.com" "222222" (Some 1)] Otp.initial))
     = [].
Proof.
  apply (otp_store_is_emptied [Otp.Store 0 "Ann@example.com" "123456" None;
                               Otp.Verify 5 "ben@example.com" "1";
                               Otp.Store 7 "ben@example.com" "222222" (Some 1)] 600000).
  vm_compute. repeat constructor; discriminate.
Defined.
